(** * PDF acquisition pipeline of Articles_update: a shallow embedding

    The development follows [download_pdfs.py]: link discovery ([main]),
    PDF URL resolution ([get_pdf_url]), file name derivation
    ([get_pdf_filename]), the download with its skip test ([download_pdf])
    and the batch loop ([process_article_links]).

    Python values are modelled as follows.
    - [str] is [string]: a sequence of 8-bit characters.  [str.lower] maps
      the ASCII capitals; every keyword the program searches for is ASCII,
      so the case mapping of other characters never creates a match.
    - bytes are [list Byte.byte].
    - an exception is a constructor of [exn]; a computation is a function of
      the world (file system and event trace) returning an [outcome].
    - the network, the HTML parser and [urljoin] are not part of the
      repository: they are parameters of the embedding.

    What the embedding leaves out.
    - The log: every [logging] call appends to [pdf_download.log]; the file
      system of a world is the file system apart from that file.
    - Time: a request is answered or fails; a server that never answers
      (the program sets no timeout) has no world after it.
    - Redirects, and addresses the library refuses to send to: a [Wire]
      event is one attempt of the adapter for the address asked, whatever
      hops it makes, and an address that cannot be sent to is an attempt
      that fails.
    - Nodes other than regular files and directories, permissions, and the
      resolution of [..] and of symbolic links. *)

From Stdlib Require Import ZArith Ascii String List Bool Lia.
From stdpp Require Import base option list gmap strings.
Import ListNotations.

Local Open Scope Z_scope.

(** ** Python string operations used by the program *)

Module Py.

Definition lower_char (c : ascii) : ascii :=
  let n := nat_of_ascii c in
  if (Nat.leb 65 n && Nat.leb n 90)%bool then ascii_of_nat (n + 32) else c.

(** [s.lower()] *)
Fixpoint lower (s : string) : string :=
  match s with
  | EmptyString => EmptyString
  | String c t => String (lower_char c) (lower t)
  end.

(** [s.startswith(p)] *)
Fixpoint startswith (p s : string) : bool :=
  match p, s with
  | EmptyString, _ => true
  | String _ _, EmptyString => false
  | String a p', String b s' => if ascii_dec a b then startswith p' s' else false
  end.

(** [needle in hay] *)
Fixpoint contains (needle hay : string) : bool :=
  startswith needle hay ||
  match hay with
  | EmptyString => false
  | String _ t => contains needle t
  end.

Fixpoint rev_onto (s acc : string) : string :=
  match s with
  | EmptyString => acc
  | String c t => rev_onto t (String c acc)
  end.

Definition rev (s : string) : string := rev_onto s EmptyString.

(** [s.endswith(p)] *)
Definition endswith (p s : string) : bool := startswith (rev p) (rev s).

(** [s.split(sep)] for a non-empty [sep]: a left-to-right scan for
    non-overlapping occurrences.  [skip] counts the characters of an
    occurrence that are still to be passed over, [cur] is the current
    piece, reversed. *)
Fixpoint split_scan (sep : string) (skip : nat) (cur s : string) : list string :=
  match s with
  | EmptyString => [rev cur]
  | String c t =>
      match skip with
      | S k => split_scan sep k cur t
      | O =>
          if startswith sep s
          then rev cur :: split_scan sep (String.length sep - 1) EmptyString t
          else split_scan sep O (String c cur) t
      end
  end.

Definition split (sep s : string) : list string :=
  split_scan sep O EmptyString s.

(** [l[-1]] and [l[0]] on the result of [split], which is never empty. *)
Definition last_item (l : list string) : string := List.last l EmptyString.
Definition first_item (l : list string) : string := List.hd EmptyString l.

Fixpoint mem_char (c : ascii) (chars : string) : bool :=
  match chars with
  | EmptyString => false
  | String d t => if ascii_dec c d then true else mem_char c t
  end.

(** [s.lstrip(chars)], [s.rstrip(chars)], [s.strip(chars)] *)
Fixpoint lstrip (chars s : string) : string :=
  match s with
  | EmptyString => EmptyString
  | String c t => if mem_char c chars then lstrip chars t else s
  end.

Definition rstrip (chars s : string) : string := rev (lstrip chars (rev s)).

Definition strip (chars s : string) : string := rstrip chars (lstrip chars s).

(** Truth value of a string: the empty string is false. *)
Definition truthy (s : string) : bool :=
  match s with EmptyString => false | String _ _ => true end.

(** [int(s)] on a string, as Python reads a decimal literal: surrounding
    white space is dropped, a sign may come first, and single underscores
    may separate digits; a literal of more than [max_str_digits] digits is
    refused (the default of [sys.set_int_max_str_digits]).  [None] stands
    for [ValueError]. *)
Fixpoint digits_value (s : string) (acc : Z) (after_digit : bool) : option Z :=
  match s with
  | EmptyString => if after_digit then Some acc else None
  | String c t =>
      match Ascii.is_nat c with
      | Some d => digits_value t (10 * acc + Z.of_nat d) true
      | None =>
          if (if ascii_dec c "_" then after_digit else false)
          then digits_value t acc false
          else None
      end
  end.

(** The characters of an 8-bit string that [str.isspace] accepts. *)
Definition blanks : string :=
  String "009" (String "010" (String "011" (String "012" (String "013"
  (String "028" (String "029" (String "030" (String "031" (String " "
  (String "133" (String "160" EmptyString))))))))))).

Definition max_str_digits : nat := 4300.

Fixpoint count_digits (s : string) : nat :=
  match s with
  | EmptyString => O
  | String c t =>
      match Ascii.is_nat c with
      | Some _ => S (count_digits t)
      | None => count_digits t
      end
  end.

Definition int (s : string) : option Z :=
  let t := strip blanks s in
  if (max_str_digits <? count_digits t)%nat then None
  else
    match t with
    | String "-" t => Z.opp <$> digits_value t 0 false
    | String "+" t => digits_value t 0 false
    | t => digits_value t 0 false
    end.

End Py.

(** ** HTTP messages *)

(** [requests] exposes response headers through a case-insensitive mapping. *)
Definition Headers := list (string * string).

Fixpoint headers_get (name : string) (h : Headers) : option string :=
  match h with
  | [] => None
  | (k, v) :: rest =>
      if String.eqb (Py.lower k) (Py.lower name) then Some v
      else headers_get name rest
  end.

(** [name in response.headers] *)
Definition headers_mem (name : string) (h : Headers) : bool :=
  match headers_get name h with Some _ => true | None => false end.

(** A response as the program sees it: status line, headers and the body as
    the pieces [iter_content] delivers; [body_broken] says that the
    connection fails after the last piece instead of ending normally. *)
Record Response := {
  status_code : Z;
  headers : Headers;
  body_chunks : list (list Byte.byte);
  body_broken : bool
}.

(** ** [get_pdf_filename] (download_pdfs.py, lines 86-102) *)

(** The two characters of the argument of [strip]: the double and the
    single quote. *)
Definition quote_chars : string :=
  String "034"%char (String "039"%char EmptyString).

Definition get_pdf_filename (pdf_url : string) (response : Response) : string :=
  let filename := Py.last_item (Py.split "/" pdf_url) in
  let filename :=
    if headers_mem "Content-Disposition" (headers response) then
      let content_disp := default EmptyString (headers_get "Content-Disposition" (headers response)) in
      if Py.contains "filename=" content_disp
      then Py.strip quote_chars (Py.last_item (Py.split "filename=" content_disp))
      else filename
    else filename in
  let filename := Py.first_item (Py.split "?" filename) in
  if negb (Py.endswith ".pdf" (Py.lower filename))
  then filename +:+ ".pdf"
  else filename.

(** ** Paths ([pathlib.PurePosixPath]) and the file system *)

(** A path is its root ([EmptyString] for a relative path, one or two
    slashes otherwise) and its components.  Parsing drops empty and [.]
    components and keeps [..]. *)
Record Path := { root : string; parts : list string }.

Definition path_component (x : string) : bool :=
  Py.truthy x && negb (String.eqb x ".").

Definition Path_of (s : string) : Path :=
  {| root := if Py.startswith "//" s && negb (Py.startswith "///" s) then "//"
             else if Py.startswith "/" s then "/" else EmptyString;
     parts := List.filter path_component (Py.split "/" s) |}.

(** [p / s]: an absolute right operand replaces the left one. *)
Definition joinpath (p : Path) (s : string) : Path :=
  let q := Path_of s in
  if Py.truthy (root q) then q
  else {| root := root p; parts := parts p ++ parts q |}.

Fixpoint join_parts (l : list string) : string :=
  match l with
  | [] => EmptyString
  | [x] => x
  | x :: rest => x +:+ "/" +:+ join_parts rest
  end.

(** [str(p)] *)
Definition path_str (p : Path) : string :=
  match root p, parts p with
  | EmptyString, [] => "."
  | r, l => r +:+ join_parts l
  end.

(** [p.parent] *)
Definition parent (p : Path) : Path :=
  {| root := root p; parts := removelast (parts p) |}.

(** What a path names: a regular file with its content, or a directory. *)
Inductive Node :=
| File (data : list Byte.byte)
| Dir.

(** ** Sessions and the retry policy (lines 22-35) *)

Inductive Method := GET | HEAD.

(** [urllib3.util.retry.Retry], the three settings the program gives. *)
Record Retry := {
  total : nat;
  backoff_factor : nat;
  status_forcelist : list Z
}.

(** A [requests.Session], reduced to the retry policy of the adapter mounted
    for both schemes. *)
Record Session := { max_retries : Retry }.

Definition create_session : Session :=
  let retry_strategy :=
    {| total := 5; backoff_factor := 1;
       status_forcelist := [429; 500; 502; 503; 504] |} in
  {| max_retries := retry_strategy |}.

(** The module-level [session]. *)
Definition session : Session := create_session.

(** The module-level functions [requests.get] and [requests.head] open a
    session of their own, whose adapter has the library defaults: no retry
    and no status list. *)
Definition requests_default : Session :=
  {| max_retries := {| total := 0; backoff_factor := 0; status_forcelist := [] |} |}.

(** ** Worlds, events and computations *)

Inductive Event :=
| Wire (s : Session) (m : Method) (url : string)
    (* one request sent by the adapter of session [s] *)
| Recv (url : string) (n : nat)
    (* [n] bytes of a response body received *)
| Sleep (ms : nat).
    (* [time.sleep], in milliseconds *)

(** What one request on the wire gives: no usable connection, or a response. *)
Inductive Reply :=
| Refused
| Answer (r : Response).

Record World := {
  fs : gmap string Node;
  trace : list Event
}.

(** The exceptions that occur; all derive from [Exception]. *)
Inductive exn :=
| ConnectionError
| RetryError
| HTTPError (status : Z)
| ChunkedEncodingError
| ValueError
| FileExistsError
| FileNotFoundError
| NotADirectoryError
| IsADirectoryError.

Inductive outcome (A : Type) :=
| Returned (a : A)
| Raised (e : exn).

Arguments Returned {A} a.
Arguments Raised {A} e.

Definition M (A : Type) : Type := World -> outcome A * World.

Definition ret {A} (a : A) : M A := fun w => (Returned a, w).

Definition raise {A} (e : exn) : M A := fun w => (Raised e, w).

Definition bind {A B} (c : M A) (k : A -> M B) : M B :=
  fun w =>
    match c w with
    | (Returned a, w') => k a w'
    | (Raised e, w') => (Raised e, w')
    end.

(** [try: c  except Exception as e: h e] *)
Definition try_except {A} (c : M A) (h : exn -> M A) : M A :=
  fun w =>
    match c w with
    | (Returned a, w') => (Returned a, w')
    | (Raised e, w') => h e w'
    end.

Declare Scope py_scope.
Delimit Scope py_scope with py.
Notation "x <- c ;; k" := (bind c (fun x => k))
  (at level 100, c at next level, right associativity) : py_scope.
Notation "c ;;; k" := (bind c (fun _ => k))
  (at level 100, right associativity) : py_scope.
Local Open Scope py_scope.

Definition emit (e : Event) : M unit :=
  fun w => (Returned tt, {| fs := fs w; trace := trace w ++ [e] |}).

Definition sleep (ms : nat) : M unit := emit (Sleep ms).

Definition get_fs : M (gmap string Node) := fun w => (Returned (fs w), w).

Definition put_fs (f : gmap string Node) : M unit :=
  fun w => (Returned tt, {| fs := f; trace := trace w |}).


(** An anchor element as the program reads it: the [href] attribute, the
    [.string] of the tag (present when the tag has a single text child) and
    its [.text] (all the text below it). *)
Record Anchor := {
  a_href : option string;
  a_string : option string;
  a_text : string
}.

(** ** The pipeline *)

(** What the repository takes from outside: the origin servers and three
    library functions. *)
Record Env := {
  (** the reply of the network to a request, given everything that happened
      before it; redirects are followed inside *)
  net : list Event -> Method -> string -> Reply;
  (** [urllib.parse.urljoin]; [None] stands for the [ValueError] it raises
      on an address it cannot split *)
  urljoin : string -> string -> option string;
  (** [BeautifulSoup(text, 'html.parser').find_all('a')]: the anchors of a
      page in document order *)
  html_anchors : string -> list Anchor;
  (** [st_size] of a directory on the platform *)
  dir_st_size : nat
}.

Section Pipeline.

Variable env : Env.

(** *** The transport *)

(** One call of the adapter: the request is sent, and sent again while the
    policy of the session allows it.  A response whose status is on the
    status list counts as a failure to retry, as does a connection that
    could not be used; when no retry is left the first gives [RetryError],
    the second [ConnectionError]. *)
Fixpoint urlopen (s : Session) (m : Method) (url : string) (left : nat) : M Response :=
  fun w =>
    let reply := net env (trace w) m url in
    let w' := {| fs := fs w; trace := trace w ++ [Wire s m url] |} in
    match reply with
    | Answer r =>
        if existsb (Z.eqb (status_code r)) (status_forcelist (max_retries s))
        then match left with
             | O => (Raised RetryError, w')
             | S k => urlopen s m url k w'
             end
        else (Returned r, w')
    | Refused =>
        match left with
        | O => (Raised ConnectionError, w')
        | S k => urlopen s m url k w'
        end
    end.

(** Reading the body of a response piece by piece. *)
Fixpoint read_body (url : string) (chunks : list (list Byte.byte)) : M unit :=
  match chunks with
  | [] => ret tt
  | data :: rest => emit (Recv url (length data)) ;;; read_body url rest
  end.

(** [s.request(m, url, stream=stream)]: without [stream] the body of a GET
    is read before the call returns; a HEAD has no body. *)
Definition request (s : Session) (m : Method) (url : string) (stream : bool) : M Response :=
  r <- urlopen s m url (total (max_retries s)) ;;
  match m with
  | HEAD => ret r
  | GET =>
      if stream then ret r
      else
        read_body url (body_chunks r) ;;;
        if body_broken r then raise ChunkedEncodingError else ret r
  end.

(** [response.raise_for_status()]: the statuses 400 to 599 raise. *)
Definition http_error (r : Response) : bool :=
  (400 <=? status_code r) && (status_code r <? 600).

Definition raise_for_status (r : Response) : M unit :=
  if http_error r then raise (HTTPError (status_code r)) else ret tt.

(** [response.text] *)
Definition text (r : Response) : string :=
  string_of_list_byte (concat (body_chunks r)).

(** [int(response.headers.get(name, 0))] *)
Definition header_int (name : string) (r : Response) : M Z :=
  match headers_get name (headers r) with
  | None => ret 0
  | Some v =>
      match Py.int v with
      | Some z => ret z
      | None => raise ValueError
      end
  end.

(** *** The file system
    The map is keyed by the text of a path.  How the kernel resolves [..]
    and symbolic links is not modelled: a path names a node only when the
    map has that text. *)

(** [p.exists()] *)
Definition path_exists (p : Path) : M bool :=
  f <- get_fs ;;
  ret (match f !! path_str p with Some _ => true | None => false end).

(** [p.stat().st_size], for a path that exists *)
Definition st_size (p : Path) : M nat :=
  f <- get_fs ;;
  match f !! path_str p with
  | Some (File data) => ret (length data)
  | Some Dir => ret (dir_st_size env)
  | None => raise FileNotFoundError
  end.

(** Whether the directory [d] is there; the working directory and the root
    always are. *)
Definition dir_status (f : gmap string Node) (d : Path) : option exn :=
  match parts d with
  | [] => None
  | _ =>
      match f !! path_str d with
      | Some Dir => None
      | Some (File _) => Some NotADirectoryError
      | None => Some FileNotFoundError
      end
  end.

(** [p.mkdir(exist_ok=True)] *)
Definition mkdir_exist_ok (p : Path) : M unit :=
  f <- get_fs ;;
  match parts p with
  | [] => ret tt
  | _ =>
      match f !! path_str p with
      | Some Dir => ret tt
      | Some (File _) => raise FileExistsError
      | None =>
          match dir_status f (parent p) with
          | Some e => raise e
          | None => put_fs (<[path_str p := Dir]> f)
          end
      end
  end.

(** [open(p, 'wb')]: the file is created, or emptied when it is there. *)
Definition open_wb (p : Path) : M unit :=
  f <- get_fs ;;
  match parts p, f !! path_str p with
  | [], _ | _, Some Dir => raise IsADirectoryError
  | _, _ =>
      match dir_status f (parent p) with
      | Some e => raise e
      | None => put_fs (<[path_str p := File []]> f)
      end
  end.

(** [f.write(data)] on the file opened at [p]; the result is the number of
    bytes written. *)
Definition write (p : Path) (data : list Byte.byte) : M nat :=
  f <- get_fs ;;
  let old := match f !! path_str p with Some (File d) => d | _ => [] end in
  put_fs (<[path_str p := File (old ++ data)]> f) ;;;
  ret (length data).

(** *** [get_pdf_url] (lines 37-84) *)

(** [x and term in x.lower()] for an attribute or string that may be
    missing. *)
Definition has_term (term : string) (x : option string) : bool :=
  match x with
  | Some v => Py.truthy v && Py.contains term (Py.lower v)
  | None => false
  end.

(** The two kinds of pattern of [pdf_patterns]: on the [href] attribute, and
    on the string of the tag. *)
Definition by_href (term : string) (soup : list Anchor) : list Anchor :=
  List.filter (fun a => has_term term (a_href a)) soup.

Definition by_string (terms : list string) (soup : list Anchor) : list Anchor :=
  List.filter (fun a =>
    match a_string a with
    | Some x =>
        Py.truthy x && existsb (fun term => Py.contains term (Py.lower x)) terms
    | None => false
    end) soup.

Definition pdf_patterns : list (list Anchor -> list Anchor) :=
  [ by_href "pdf";
    by_href "download";
    by_href "report";
    by_string ["report"; "download"; "pdf"] ].

(** The body of the inner [try] (lines 69-72): the probe and its verdict. *)
Definition probe (full_url : string) : M bool :=
  head <- request requests_default HEAD full_url false ;;
  let content_type := default EmptyString (headers_get "content-type" (headers head)) in
  ret (Py.contains "pdf" (Py.lower content_type)).

(** The loop over the links of one pattern (lines 62-75); the result is the
    value the function returns from inside the loop, if it does.  The join
    of line 65 is outside the inner [try]: when it raises, the loop is
    left. *)
Fixpoint scan_links (article_url : string) (links : list Anchor) : M (option string) :=
  match links with
  | [] => ret None
  | link :: rest =>
      match a_href link with
      | Some href =>
          if Py.truthy href then
            match urljoin env article_url href with
            | Some full_url =>
                verified <- try_except (probe full_url) (fun _ => ret false) ;;
                if verified : bool then ret (Some full_url)
                else scan_links article_url rest
            | None => raise ValueError
            end
          else scan_links article_url rest
      | None => scan_links article_url rest
      end
  end.

(** The loop over the patterns (lines 59-75). *)
Fixpoint scan_patterns (article_url : string) (patterns : list (list Anchor -> list Anchor))
    (soup : list Anchor) : M (option string) :=
  match patterns with
  | [] => ret None
  | pattern :: rest =>
      let links := pattern soup in
      match links with
      | [] => scan_patterns article_url rest soup
      | _ =>
          found <- scan_links article_url links ;;
          match found with
          | Some full_url => ret (Some full_url)
          | None => scan_patterns article_url rest soup
          end
      end
  end.

Definition get_pdf_url (article_url : string) : M (option string) :=
  try_except
    (response <- request session GET article_url false ;;
     raise_for_status response ;;;
     let soup := html_anchors env (text response) in
     scan_patterns article_url pdf_patterns soup)
    (fun _ => ret None).

(** *** [download_pdf] (lines 104-154) *)

(** The loop over [response.iter_content] (lines 143-145). *)
Fixpoint write_body (output_path : Path) (pdf_url : string)
    (chunks : list (list Byte.byte)) : M unit :=
  match chunks with
  | [] => ret tt
  | data :: rest =>
      emit (Recv pdf_url (length data)) ;;;
      size <- write output_path data ;;
      write_body output_path pdf_url rest
  end.

(** Lines 119-128: whether the download is skipped. *)
Definition already_complete (output_path : Path) (head_response : Response) : M bool :=
  present <- path_exists output_path ;;
  if present : bool then
    existing_size <- st_size output_path ;;
    expected_size <- header_int "content-length" head_response ;;
    ret (Z.of_nat existing_size =? expected_size)
  else ret false.

(** Lines 130-151: the streaming request and the copy to the file. *)
Definition transfer (pdf_url : string) (output_path : Path) : M (option Path) :=
  response <- request session GET pdf_url true ;;
  raise_for_status response ;;;
  total_size <- header_int "content-length" response ;;
  open_wb output_path ;;;
  write_body output_path pdf_url (body_chunks response) ;;;
  (if body_broken response then raise ChunkedEncodingError else ret tt) ;;;
  sleep 500 ;;;
  ret (Some output_path).

Definition download_pdf (pdf_url : string) (output_dir : Path) : M (option Path) :=
  try_except
    (head_response <- request session HEAD pdf_url false ;;
     raise_for_status head_response ;;;
     let filename := get_pdf_filename pdf_url head_response in
     let output_path := joinpath output_dir filename in
     skip <- already_complete output_path head_response ;;
     if skip : bool then ret (Some output_path)
     else transfer pdf_url output_path)
    (fun _ => ret None).

(** *** [process_article_links] (lines 156-182) *)

(** The [for] loop, with [downloaded_files] as it stands. *)
Fixpoint process_loop (output_dir : Path) (article_links : list string)
    (downloaded_files : list Path) : M (list Path) :=
  match article_links with
  | [] => ret downloaded_files
  | link :: rest =>
      pdf_url <- get_pdf_url link ;;
      match pdf_url with
      | Some u =>
          if Py.truthy u then
            sleep 1000 ;;;
            pdf_path <- download_pdf u output_dir ;;
            match pdf_path with
            | Some p => process_loop output_dir rest (downloaded_files ++ [p])
            | None => process_loop output_dir rest downloaded_files
            end
          else process_loop output_dir rest downloaded_files
      | None => process_loop output_dir rest downloaded_files
      end
  end.

Definition process_article_links (article_links : list string) : M (list Path) :=
  let output_dir := Path_of "pdfs" in
  mkdir_exist_ok output_dir ;;;
  process_loop output_dir article_links [].

(** *** [main] (lines 184-230) *)

(** Whether a link of a seed page is kept (lines 213-214). *)
Definition relevant (terms : list string) (link : Anchor) (href : string) : bool :=
  existsb (fun term =>
    Py.contains term (Py.lower href) ||
    (Py.truthy (a_text link) && Py.contains term (Py.lower (a_text link)))) terms.

(** The loop over the anchors of one seed page (lines 209-218).
    [all_links] is one set, changed in place: the second component is the
    set as the loop leaves it, at its end or at the [ValueError] of a join
    (line 215). *)
Fixpoint collect_links (base_url url : string) (terms : list string)
    (links : list Anchor) (all_links : gset string) : outcome unit * gset string :=
  match links with
  | [] => (Returned tt, all_links)
  | link :: rest =>
      match a_href link with
      | Some href =>
          if Py.truthy href && relevant terms link href then
            match urljoin env url href with
            | Some full_url =>
                if Py.contains base_url full_url
                then collect_links base_url url terms rest ({[full_url]} ∪ all_links)
                else collect_links base_url url terms rest all_links
            | None => (Raised ValueError, all_links)
            end
          else collect_links base_url url terms rest all_links
      | None => collect_links base_url url terms rest all_links
      end
  end.

(** The loop over the seed pages (lines 202-220).  The handler of line 219
    only logs, whatever was raised: after a page that could be read, the
    set is what the loop over its anchors left, also when that loop was
    left by an exception. *)
Fixpoint discover_loop (base_url : string) (terms : list string)
    (article_links : list string) (all_links : gset string) : M (gset string) :=
  match article_links with
  | [] => ret all_links
  | url :: rest =>
      found <- try_except
        (response <- request requests_default GET url false ;;
         raise_for_status response ;;;
         let soup := html_anchors env (text response) in
         match collect_links base_url url terms soup all_links with
         | (Returned _, found) => ret found
         | (Raised _, found) => ret found (* caught at line 219 *)
         end)
        (fun _ => ret all_links) ;;
      discover_loop base_url terms rest found
  end.

(** Lines 201-223: the links found on the seed pages, and the seed pages. *)
Definition discover (base_url : string) (terms : list string)
    (article_links : list string) : M (gset string) :=
  all_links <- discover_loop base_url terms article_links ∅ ;;
  ret (all_links ∪ list_to_set article_links).

Definition main_terms : list string :=
  ["poll"; "report"; "research"; "study"; "findings"].

Definition main : M unit :=
  let base_url := "https://www.mhrc.ca" in
  let article_links :=
    [ base_url +:+ "/national-polling";
      base_url +:+ "/key-facts-on-mental-health";
      base_url +:+ "/research-briefs" ] in
  sleep 1000 ;;;
  match article_links with
  | [] => ret tt
  | _ =>
      all_links <- discover base_url main_terms article_links ;;
      downloaded_files <- process_article_links (elements all_links) ;;
      ret tt
  end.

End Pipeline.

(** ** Vocabulary of the statements *)

(** The world after the copy loop of [transfer]: the file holds the pieces
    received, and each piece is on the trace. *)
Definition after_copy (p : Path) (url : string) (g : Response) (w : World) : World :=
  {| fs := <[path_str p := File (concat (body_chunks g))]> (fs w);
     trace := trace w ++ map (fun data => Recv url (length data)) (body_chunks g) |}.

(** A computation that only adds events to the trace. *)
Definition appends {A} (c : M A) : Prop :=
  forall w, exists t, trace (c w).2 = trace w ++ t.

(** A computation that only adds events to the trace, all of them with the
    property [P]. *)
Definition emits {A} (P : Event -> Prop) (c : M A) : Prop :=
  forall w, exists t, trace (c w).2 = trace w ++ t /\ Forall P t.

(** An event that is not a request, or is a request sent by the session
    [s]. *)
Definition by_session (s : Session) (ev : Event) : Prop :=
  match ev with
  | Wire s' _ _ => s' = s
  | _ => True
  end.

(** The join an anchor asks for, when its [href] is there and not empty:
    an address, or [None] when the join raises. *)
Definition target (env : Env) (article_url : string) (link : Anchor)
    : option (option string) :=
  match a_href link with
  | Some href => if Py.truthy href then Some (urljoin env article_url href) else None
  | None => None
  end.

(** The joins [get_pdf_url] makes at most: those of the matches of every
    pattern, pattern after pattern, each in document order. *)
Definition joins (env : Env) (article_url : string) (soup : list Anchor)
    : list (option string) :=
  flat_map (fun pattern => omap (target env article_url) (pattern soup)) pdf_patterns.

(** The addresses joined before a join raises. *)
Fixpoint before_failure (l : list (option string)) : list string :=
  match l with
  | Some u :: rest => u :: before_failure rest
  | _ => []
  end.

(** The addresses [get_pdf_url] probes at most: the joins of the matches up
    to the first one that raises, which ends the resolution. *)
Definition candidates (env : Env) (article_url : string) (soup : list Anchor) : list string :=
  before_failure (joins env article_url soup).

(** The candidates the matches of one pattern give when the scan starts
    with them. *)
Definition pattern_candidates (env : Env) (article_url : string)
    (pattern : list Anchor -> list Anchor) (soup : list Anchor) : list string :=
  before_failure (omap (target env article_url) (pattern soup)).

(** Probing addresses one after the other until one verifies. *)
Inductive first_verified (env : Env) : list string -> World -> option string -> World -> Prop :=
| fv_none w :
    first_verified env [] w None w
| fv_hit u rest w w' :
    probe env u w = (Returned true, w') ->
    first_verified env (u :: rest) w (Some u) w'
| fv_miss u rest w w1 res w' :
    probe env u w = (Returned false, w1) ->
    first_verified env rest w1 res w' ->
    first_verified env (u :: rest) w res w'
| fv_fail u rest w e w1 res w' :
    probe env u w = (Raised e, w1) ->
    first_verified env rest w1 res w' ->
    first_verified env (u :: rest) w res w'.

(** An address whose probe verifies whenever it is made. *)
Definition always_verifies (env : Env) (u : string) : Prop :=
  forall w, exists w', probe env u w = (Returned true, w').

(** Whether Content-Disposition is there with a [filename=] in it (lines
    92-94). *)
Definition names_file (r : Response) : bool :=
  match headers_get "Content-Disposition" (headers r) with
  | Some content_disp => Py.contains "filename=" content_disp
  | None => false
  end.

(** The value of [pdf_url] that passes the test of line 171. *)
Definition resolved (res : option string) : option string :=
  match res with
  | Some u => if Py.truthy u then Some u else None
  | None => None
  end.

Definition slept (ms : nat) (w : World) : World :=
  {| fs := fs w; trace := trace w ++ [Sleep ms] |}.

(** What one link of a batch comes to: no file when it does not resolve,
    otherwise what [download_pdf] returns. *)
Inductive link_run (env : Env) : string -> World -> option Path -> World -> Prop :=
| run_unresolved link w res w1 :
    get_pdf_url env link w = (Returned res, w1) ->
    resolved res = None ->
    link_run env link w None w1
| run_resolved link w res u w1 file w2 :
    get_pdf_url env link w = (Returned res, w1) ->
    resolved res = Some u ->
    download_pdf env u (Path_of "pdfs") (slept 1000 w1) = (Returned file, w2) ->
    link_run env link w file w2.

(** The links of a batch, one after the other. *)
Inductive batch_run (env : Env) : list string -> World -> list (option Path) -> World -> Prop :=
| batch_nil w :
    batch_run env [] w [] w
| batch_cons link rest w file w1 files w' :
    link_run env link w file w1 ->
    batch_run env rest w1 files w' ->
    batch_run env (link :: rest) w (file :: files) w'.

(** The seed pages that could be read, with their anchors. *)
Inductive pages_fetched (env : Env) :
    list string -> World -> list (string * list Anchor) -> World -> Prop :=
| pf_nil w :
    pages_fetched env [] w [] w
| pf_read url rest w r w1 pages w' :
    request env requests_default GET url false w = (Returned r, w1) ->
    http_error r = false ->
    pages_fetched env rest w1 pages w' ->
    pages_fetched env (url :: rest) w ((url, html_anchors env (text r)) :: pages) w'
| pf_rejected url rest w r w1 pages w' :
    request env requests_default GET url false w = (Returned r, w1) ->
    http_error r = true ->
    pages_fetched env rest w1 pages w' ->
    pages_fetched env (url :: rest) w pages w'
| pf_failed url rest w e w1 pages w' :
    request env requests_default GET url false w = (Raised e, w1) ->
    pages_fetched env rest w1 pages w' ->
    pages_fetched env (url :: rest) w pages w'.

(** The address [main] keeps for an anchor of the page [url], if it keeps
    one (lines 210-217). *)
Definition kept (env : Env) (base_url : string) (terms : list string)
    (url : string) (link : Anchor) : option string :=
  match a_href link with
  | Some href =>
      if Py.truthy href && relevant terms link href then
        match urljoin env url href with
        | Some full_url => if Py.contains base_url full_url then Some full_url else None
        | None => None
        end
      else None
  | None => None
  end.

(** Whether the join of line 215 raises for an anchor of the page [url]. *)
Definition join_raises (env : Env) (terms : list string) (url : string) (link : Anchor)
    : bool :=
  match a_href link with
  | Some href =>
      Py.truthy href && relevant terms link href
      && match urljoin env url href with Some _ => false | None => true end
  | None => false
  end.

(** The anchors of a seed page the loop gets to: those before the first
    one whose join raises. *)
Fixpoint reached (env : Env) (terms : list string) (url : string) (links : list Anchor)
    : list Anchor :=
  match links with
  | [] => []
  | link :: rest =>
      if join_raises env terms url link then []
      else link :: reached env terms url rest
  end.

(** ** The wording of the specification, where it differs from the code *)

(** The last segment of the path of a URL: the query is not part of the
    path. *)
Definition url_last_path_segment (url : string) : string :=
  Py.last_item (Py.split "/" (Py.first_item (Py.split "?" url))).

(** The file name as the specification derives it: the [filename=] value of
    Content-Disposition, else the last path segment of the URL; without a
    query string; with [.pdf] added unless it ends so in any case. *)
Definition spec_filename (pdf_url : string) (response : Response) : string :=
  let content_disp := default EmptyString (headers_get "Content-Disposition" (headers response)) in
  let filename :=
    if Py.contains "filename=" content_disp
    then Py.strip quote_chars (Py.last_item (Py.split "filename=" content_disp))
    else url_last_path_segment pdf_url in
  let filename := Py.first_item (Py.split "?" filename) in
  if Py.endswith ".pdf" (Py.lower filename) then filename else filename +:+ ".pdf".

(** The fourth strategy as the specification words it: on the visible text
    of the anchor. *)
Definition spec_by_text (terms : list string) (soup : list Anchor) : list Anchor :=
  List.filter (fun a =>
    existsb (fun term => Py.contains term (Py.lower (a_text a))) terms) soup.

Definition spec_patterns : list (list Anchor -> list Anchor) :=
  [ by_href "pdf";
    by_href "download";
    by_href "report";
    spec_by_text ["report"; "download"; "pdf"] ].

(** The candidates as the specification words them: the matches of the
    first pattern that has any. *)
Fixpoint spec_first_matching (patterns : list (list Anchor -> list Anchor))
    (soup : list Anchor) : list Anchor :=
  match patterns with
  | [] => []
  | pattern :: rest =>
      match pattern soup with
      | [] => spec_first_matching rest soup
      | links => links
      end
  end.

Definition spec_get_pdf_url (env : Env) (article_url : string) : M (option string) :=
  try_except
    (response <- request env session GET article_url false ;;
     raise_for_status response ;;;
     let soup := html_anchors env (text response) in
     scan_links env article_url (spec_first_matching spec_patterns soup))
    (fun _ => ret None).

(** A status outside 200-299. *)
Definition non_2xx (r : Response) : Prop :=
  ~ (200 <= status_code r < 300).

(** The specification on a page fetch that ends with such a status. *)
Definition spec_non_2xx_page_gives_none (env : Env) (url : string) (w : World) : Prop :=
  forall r w1,
    request env session GET url false w = (Returned r, w1) ->
    non_2xx r ->
    (get_pdf_url env url w).1 = Returned None.

(** The address the specification keeps for an anchor: the keyword is
    looked for in the joined address instead of the [href] as written. *)
Definition spec_kept (env : Env) (base_url : string) (terms : list string)
    (url : string) (link : Anchor) : option string :=
  match a_href link with
  | Some href =>
      match urljoin env url href with
      | Some full_url =>
          if existsb (fun term =>
               Py.contains term (Py.lower full_url) ||
               Py.contains term (Py.lower (a_text link))) terms
             && Py.contains base_url full_url
          then Some full_url
          else None
      | None => None
      end
  | None => None
  end.

Definition spec_discover_result (env : Env) (base_url : string) (terms seeds : list string)
    (w : World) : Prop :=
  forall pages w' (found : gset string),
    discover env base_url terms seeds w = (Returned found, w') ->
    pages_fetched env seeds w pages w' ->
    forall x, x ∈ found <->
      x ∈ seeds \/
      exists url soup link,
        (url, soup) ∈ pages /\ link ∈ soup /\
        spec_kept env base_url terms url link = Some x.

(** ** Scenarios *)

Definition method_eqb (a b : Method) : bool :=
  match a, b with
  | GET, GET | HEAD, HEAD => true
  | _, _ => false
  end.

(** Servers that answer a request from a table, whatever came before. *)
Definition static_net (table : list (Method * string * Reply))
    : list Event -> Method -> string -> Reply :=
  fun _ m url =>
    match List.find (fun e => method_eqb m e.1.1 && String.eqb url e.1.2) table with
    | Some e => e.2
    | None => Refused
    end.

(** A parser known by its results on the pages of a scenario. *)
Definition page_table (table : list (string * list Anchor)) (text : string) : list Anchor :=
  match List.find (fun e => String.eqb text e.1) table with
  | Some e => e.2
  | None => []
  end.

(** [urljoin] on the references of the scenarios: a reference that is a
    query is put after the base without its own query, an absolute URL is
    the result as it is, and a reference whose host opens a bracket that is
    never closed cannot be split. *)
Definition scenario_urljoin (base ref : string) : option string :=
  if Py.startswith "//[" ref then None
  else if Py.startswith "?" ref
  then Some (Py.first_item (Py.split "?" base) +:+ ref)
  else Some ref.

Definition response_of (status : Z) (h : Headers) (body : list string) (broken : bool)
    : Response :=
  {| status_code := status; headers := h;
     body_chunks := map list_byte_of_string body; body_broken := broken |}.

Definition answer (status : Z) (h : Headers) (body : list string) (broken : bool) : Reply :=
  Answer (response_of status h body broken).

Definition link_to (href text : string) : Anchor :=
  {| a_href := Some href; a_string := Some text; a_text := text |}.

Definition scenario (table : list (Method * string * Reply))
    (pages : list (string * list Anchor)) : Env :=
  {| net := static_net table;
     urljoin := scenario_urljoin;
     html_anchors := page_table pages;
     dir_st_size := 4096 |}.

Definition world_of (files : list (string * Node)) : World :=
  {| fs := list_to_map files; trace := [] |}.

Definition report_url : string := "https://x.org/r.pdf".

(** A server for one PDF of three bytes. *)
Definition report_head : Response := response_of 200 [("Content-Length", "3")] [] false.

Definition report_get : Response :=
  response_of 200 [("Content-Length", "3")] ["ab"; "c"] false.

Definition env_report : Env :=
  scenario [ (HEAD, report_url, Answer report_head); (GET, report_url, Answer report_get) ] [].

(** The same without a content-length. *)
Definition plain_head : Response :=
  response_of 200 [("Content-Type", "application/pdf")] [] false.

Definition plain_get : Response :=
  response_of 200 [("Content-Type", "application/pdf")] ["abc"] false.

Definition env_report_no_length : Env :=
  scenario [ (HEAD, report_url, Answer plain_head); (GET, report_url, Answer plain_get) ] [].




(** The world a request of the shared session leaves. *)
Definition after_request (env : Env) (m : Method) (url : string) (stream : bool)
    (w : World) : World :=
  (request env session m url stream w).2.

Definition world_complete : World :=
  world_of [("pdfs", Dir); ("pdfs/r.pdf", File (list_byte_of_string "abc"))].


Definition world_empty_file : World :=
  world_of [("pdfs", Dir); ("pdfs/r.pdf", File [])].

Definition world_fresh : World := world_of [("pdfs", Dir)].

Definition world_bare : World := world_of [].

(** A page with two links: the first has pdf in its address and is an HTML
    page, the second has download in its address and is a PDF. *)
Definition two_links_html : string :=
  "<a href='https://x.org/a.pdf'>A</a><a href='https://x.org/download/b'>B</a>".

Definition two_links_page : Response := response_of 200 [] [two_links_html] false.

Definition env_two_links : Env :=
  scenario
    [ (GET, "https://x.org/p", answer 200 [] [two_links_html] false);
      (HEAD, "https://x.org/a.pdf", answer 200 [("Content-Type", "text/html")] [] false);
      (HEAD, "https://x.org/download/b", answer 200 [("Content-Type", "application/pdf")] [] false) ]
    [ (two_links_html,
       [ link_to "https://x.org/a.pdf" "A"; link_to "https://x.org/download/b" "B" ]) ].

(** A page whose first link has download in its address and whose second
    link has pdf in it; both are PDFs. *)
Definition both_verify_html : string :=
  "<a href='https://x.org/download/b'>B</a><a href='https://x.org/a.pdf'>A</a>".

Definition both_verify_page : Response := response_of 200 [] [both_verify_html] false.

Definition both_verify_anchors : list Anchor :=
  [ link_to "https://x.org/download/b" "B"; link_to "https://x.org/a.pdf" "A" ].

Definition env_both_verify : Env :=
  scenario
    [ (GET, "https://x.org/p", Answer both_verify_page);
      (HEAD, "https://x.org/a.pdf", answer 200 [("Content-Type", "application/pdf")] [] false);
      (HEAD, "https://x.org/download/b", answer 200 [("Content-Type", "application/pdf")] [] false) ]
    [ (both_verify_html, both_verify_anchors) ].

(** The same page, answered with status 300, its first link a PDF. *)
Definition env_status_300 : Env :=
  scenario
    [ (GET, "https://x.org/p", answer 300 [] [two_links_html] false);
      (HEAD, "https://x.org/a.pdf", answer 200 [("Content-Type", "application/pdf")] [] false) ]
    [ (two_links_html,
       [ link_to "https://x.org/a.pdf" "A"; link_to "https://x.org/download/b" "B" ]) ].

(** A page answered with status 404, and an address nobody answers. *)
Definition env_failures : Env :=
  scenario
    [ (GET, "https://x.org/gone", answer 404 [] ["not found"] false) ]
    [].

(** Three article pages with one PDF each; the second page cannot be
    reached. *)
Definition page_html (n : string) : string :=
  "<a href='https://x.org/f" +:+ n +:+ ".pdf'>PDF</a>".

Definition pdf_reply (body : string) : Reply :=
  answer 200 [("Content-Type", "application/pdf")] [body] false.

Definition env_batch : Env :=
  scenario
    [ (GET, "https://x.org/p1", answer 200 [] [page_html "1"] false);
      (GET, "https://x.org/p3", answer 200 [] [page_html "3"] false);
      (HEAD, "https://x.org/f1.pdf", pdf_reply EmptyString);
      (GET, "https://x.org/f1.pdf", pdf_reply "one");
      (HEAD, "https://x.org/f3.pdf", pdf_reply EmptyString);
      (GET, "https://x.org/f3.pdf", pdf_reply "three") ]
    [ (page_html "1", [link_to "https://x.org/f1.pdf" "PDF"]);
      (page_html "3", [link_to "https://x.org/f3.pdf" "PDF"]) ].

Definition batch_links : list string :=
  ["https://x.org/p1"; "https://x.org/p2"; "https://x.org/p3"].

(** A server that answers the first HEAD for a PDF with 503 and the next
    ones with the PDF. *)
Definition one_link_html : string := "<a href='https://x.org/a.pdf'>A</a>".

Definition asked_before (m : Method) (url : string) (t : list Event) : bool :=
  existsb (fun ev =>
    match ev with
    | Wire _ m' url' => method_eqb m m' && String.eqb url url'
    | _ => false
    end) t.

Definition env_busy_once : Env :=
  {| net := fun t m url =>
       if method_eqb m HEAD && String.eqb url "https://x.org/a.pdf" then
         if asked_before HEAD url t
         then answer 200 [("Content-Type", "application/pdf")] [] false
         else answer 503 [] [] false
       else static_net [(GET, "https://x.org/p", answer 200 [] [one_link_html] false)] t m url;
     urljoin := scenario_urljoin;
     html_anchors := page_table [(one_link_html, [link_to "https://x.org/a.pdf" "A"])];
     dir_st_size := 4096 |}.

(** A seed page with a link to its second page and a link to a report. *)
Definition seed_url : string := "https://www.mhrc.ca/research-briefs".

Definition seed_html : string :=
  "<a href='?page=2'>Next</a><a href='https://www.mhrc.ca/about'>Annual report</a>".

Definition seed_page : Response := response_of 200 [] [seed_html] false.

Definition seed_anchors : list Anchor :=
  [ link_to "?page=2" "Next"; link_to "https://www.mhrc.ca/about" "Annual report" ].

Definition env_seed : Env :=
  scenario [ (GET, seed_url, Answer seed_page) ] [ (seed_html, seed_anchors) ].

(** A server that names the file by an absolute path. *)
Definition quoted (s : string) : string :=
  String "034"%char (s +:+ String "034"%char EmptyString).

Definition env_absolute_name : Env :=
  scenario
    [ (GET, "https://x.org/p", answer 200 [] [one_link_html] false);
      (HEAD, "https://x.org/a.pdf",
       answer 200 [("Content-Type", "application/pdf");
                   ("Content-Disposition", "attachment; filename=" +:+ quoted "/tmp/evil.pdf")]
              [] false);
      (GET, "https://x.org/a.pdf",
       answer 200 [("Content-Type", "application/pdf")] ["%PDF"] false) ]
    [ (one_link_html, [link_to "https://x.org/a.pdf" "A"]) ].

Definition world_with_tmp : World := world_of [("/tmp", Dir)].

(** A page whose first link cannot be joined and whose second link is a
    PDF. *)
Definition bad_href_html : string :=
  "<a href='//[x.pdf'>A</a><a href='https://x.org/b.pdf'>B</a>".

Definition bad_href_anchors : list Anchor :=
  [ link_to "//[x.pdf" "A"; link_to "https://x.org/b.pdf" "B" ].

Definition env_bad_href : Env :=
  scenario
    [ (GET, "https://x.org/p", answer 200 [] [bad_href_html] false);
      (HEAD, "https://x.org/b.pdf", answer 200 [("Content-Type", "application/pdf")] [] false) ]
    [ (bad_href_html, bad_href_anchors) ].

(** A page whose only link is a PDF and shows the word in a nested tag: the
    anchor has a text and no single string. *)
Definition nested_text_html : string :=
  "<a href='https://x.org/get/7'>Get the <b>PDF</b></a>".

Definition nested_text_anchor : Anchor :=
  {| a_href := Some "https://x.org/get/7"; a_string := None; a_text := "Get the PDF" |}.

Definition env_nested_text : Env :=
  scenario
    [ (GET, "https://x.org/p", answer 200 [] [nested_text_html] false);
      (HEAD, "https://x.org/get/7", answer 200 [("Content-Type", "application/pdf")] [] false) ]
    [ (nested_text_html, [nested_text_anchor]) ].

(** A seed page with three reports, the second of which cannot be joined. *)
Definition reports_html : string :=
  "<a href='https://www.mhrc.ca/report-1'>One</a><a href='//[report'>Bad</a><a href='https://www.mhrc.ca/report-2'>Two</a>".

Definition reports_anchors : list Anchor :=
  [ link_to "https://www.mhrc.ca/report-1" "One";
    link_to "//[report" "Bad";
    link_to "https://www.mhrc.ca/report-2" "Two" ].

Definition env_reports : Env :=
  scenario [ (GET, seed_url, answer 200 [] [reports_html] false) ]
           [ (reports_html, reports_anchors) ].

(** ** Vocabulary of the further properties *)


(** A computation that leaves the world as it found it. *)
Definition keeps_world {A} (c : M A) : Prop := forall w, (c w).2 = w.

(** A computation that leaves the file system as it found it. *)
Definition keeps_files {A} (c : M A) : Prop := forall w, fs (c w).2 = fs w.

(** The files [f'] keep what [f] has: nothing that was there is gone, and
    what was a directory is one. *)
Definition grows_from (f f' : gmap string Node) : Prop :=
  forall k, (f !! k = Some Dir -> f' !! k = Some Dir) /\
            (is_Some (f !! k) -> is_Some (f' !! k)).

(** The seed pages of [main] (lines 187-191). *)
Definition main_article_links : list string :=
  [ "https://www.mhrc.ca/national-polling";
    "https://www.mhrc.ca/key-facts-on-mental-health";
    "https://www.mhrc.ca/research-briefs" ].

(** ** Further scenarios *)




(** A server whose content-length is no number. *)
Definition bad_head : Response := response_of 200 [("Content-Length", "many")] [] false.

Definition bad_get : Response :=
  response_of 200 [("Content-Length", "many")] ["abc"] false.

Definition env_bad_length : Env :=
  scenario [ (HEAD, report_url, Answer bad_head); (GET, report_url, Answer bad_get) ] [].

(** The worlds [download_pdf] and a batch leave. *)
Definition after_download (env : Env) (url : string) (out : Path) (w : World) : World :=
  (download_pdf env url out w).2.

Definition after_batch (env : Env) (links : list string) (w : World) : World :=
  (process_article_links env links w).2.

(** A world in which [pdfs] names a regular file. *)
Definition world_pdfs_is_file : World := world_of [("pdfs", File [])].

(** What the discovery of [main] finds on the server of the seed page. *)
Definition seed_found : gset string :=
  {[ "https://www.mhrc.ca/about" ]} ∪ list_to_set main_article_links.

(** ** Properties *)

(** *** Strings *)

Lemma append_cons a s t : String a s +:+ t = String a (s +:+ t).
Proof. reflexivity. Qed.

Lemma append_empty t : EmptyString +:+ t = t.
Proof. reflexivity. Qed.

Lemma append_assoc s t u : (s +:+ t) +:+ u = s +:+ (t +:+ u).
Proof.
  induction s as [|a s IH]; [reflexivity|].
  rewrite !append_cons. now rewrite IH.
Qed.

Lemma mem_char_app c s t :
  Py.mem_char c (s +:+ t) = Py.mem_char c s || Py.mem_char c t.
Proof.
  induction s as [|a s IH]; [reflexivity|].
  rewrite append_cons. simpl. destruct (ascii_dec c a); [reflexivity | exact IH].
Qed.

Lemma rev_onto_app s acc : Py.rev_onto s acc = Py.rev_onto s EmptyString +:+ acc.
Proof.
  revert acc. induction s as [|a s IH]; intros acc; [reflexivity|].
  simpl. rewrite IH, (IH (String a EmptyString)).
  rewrite append_assoc. reflexivity.
Qed.

Lemma mem_char_rev_onto c s acc :
  Py.mem_char c (Py.rev_onto s acc) = Py.mem_char c s || Py.mem_char c acc.
Proof.
  revert acc. induction s as [|a s IH]; intros acc; [reflexivity|].
  simpl. rewrite IH. simpl.
  destruct (ascii_dec c a); [now rewrite orb_true_r | reflexivity].
Qed.

Lemma split_scan_not_nil sep skip cur s : Py.split_scan sep skip cur s <> [].
Proof.
  revert skip cur. induction s as [|a s IH]; intros skip cur; simpl; [discriminate|].
  destruct skip; [|apply IH].
  destruct (Py.startswith sep (String a s)); [discriminate | apply IH].
Qed.

Lemma last_item_cons x l : l <> [] -> Py.last_item (x :: l) = Py.last_item l.
Proof. destruct l; [congruence | reflexivity]. Qed.

Lemma last_item_in l : l <> [] -> In (Py.last_item l) l.
Proof.
  induction l as [|x l IH]; [congruence|]. intros _.
  destruct l as [|y l]; [now left|].
  right. rewrite last_item_cons by discriminate. apply IH. discriminate.
Qed.

Lemma first_item_in l : l <> [] -> In (Py.first_item l) l.
Proof. destruct l; [congruence | now left]. Qed.

(** A character that is neither in the text nor in the piece being read is
    in no piece of the split. *)
Lemma split_scan_chars d sep skip cur s piece :
  In piece (Py.split_scan sep skip cur s) ->
  Py.mem_char d piece = true ->
  Py.mem_char d cur = true \/ Py.mem_char d s = true.
Proof.
  revert skip cur. induction s as [|a s IH]; intros skip cur; simpl.
  - intros [<-|[]] H. unfold Py.rev in H. rewrite mem_char_rev_onto in H.
    simpl in H. rewrite orb_false_r in H. now left.
  - assert (Hs : forall skip' cur',
        In piece (Py.split_scan sep skip' cur' s) ->
        Py.mem_char d piece = true ->
        (Py.mem_char d cur' = true -> Py.mem_char d cur = true \/
           (if ascii_dec d a then true else Py.mem_char d s) = true) ->
        Py.mem_char d cur = true \/
        (if ascii_dec d a then true else Py.mem_char d s) = true).
    { intros skip' cur' Hin Hp Hcur.
      destruct (IH skip' cur' Hin Hp) as [H|H]; [now apply Hcur|].
      right. destruct (ascii_dec d a); [reflexivity | exact H]. }
    destruct skip as [|k].
    + destruct (Py.startswith sep (String a s)).
      * intros [<-|Hin] Hp.
        -- unfold Py.rev in Hp. rewrite mem_char_rev_onto in Hp.
           simpl in Hp. rewrite orb_false_r in Hp. now left.
        -- apply (Hs _ _ Hin Hp). discriminate.
      * intros Hin Hp. apply (Hs _ _ Hin Hp). simpl.
        destruct (ascii_dec d a); [now right | now left].
    + intros Hin Hp. apply (Hs _ _ Hin Hp). now left.
Qed.

(** Splitting at a single character. *)
Lemma split_scan_char_absent c cur s :
  Py.mem_char c s = false ->
  Py.split_scan (String c EmptyString) O cur s = [Py.rev_onto cur s].
Proof.
  revert cur. induction s as [|a s IH]; intros cur H; [reflexivity|].
  simpl in *. destruct (ascii_dec c a); [discriminate|]. now apply IH.
Qed.

Lemma split_scan_char_pieces c cur s piece :
  In piece (Py.split_scan (String c EmptyString) O cur s) ->
  Py.mem_char c piece = true ->
  Py.mem_char c cur = true.
Proof.
  revert cur. induction s as [|a s IH]; intros cur; simpl.
  - intros [<-|[]] H. unfold Py.rev in H. rewrite mem_char_rev_onto in H.
    simpl in H. now rewrite orb_false_r in H.
  - destruct (ascii_dec c a) as [->|Hne].
    + intros [<-|Hin] Hp.
      * unfold Py.rev in Hp. rewrite mem_char_rev_onto in Hp.
        simpl in Hp. now rewrite orb_false_r in Hp.
      * specialize (IH _ Hin Hp). discriminate.
    + intros Hin Hp. specialize (IH _ Hin Hp). simpl in IH.
      destruct (ascii_dec c a); [contradiction | exact IH].
Qed.

Lemma split_char_last_app c cur a q :
  Py.mem_char c q = false ->
  Py.last_item (Py.split_scan (String c EmptyString) O cur (a +:+ q))
  = Py.last_item (Py.split_scan (String c EmptyString) O cur a) +:+ q.
Proof.
  intros Hq. revert cur. induction a as [|d a IH]; intros cur.
  - rewrite append_empty, split_scan_char_absent by exact Hq.
    simpl. unfold Py.rev. apply rev_onto_app.
  - rewrite append_cons. simpl. destruct (ascii_dec c d).
    + rewrite !last_item_cons by apply split_scan_not_nil. apply IH.
    + apply IH.
Qed.

Lemma split_char_first_app c cur a q :
  Py.mem_char c a = false ->
  q = EmptyString \/ Py.startswith (String c EmptyString) q = true ->
  Py.first_item (Py.split_scan (String c EmptyString) O cur (a +:+ q))
  = Py.rev_onto cur a.
Proof.
  intros Ha Hq. revert cur. induction a as [|d a IH]; intros cur.
  - rewrite append_empty. destruct Hq as [->|Hq]; [reflexivity|].
    destruct q as [|e q]; [discriminate|]. simpl in *.
    destruct (ascii_dec c e); [reflexivity | discriminate].
  - rewrite append_cons. simpl in *.
    destruct (ascii_dec c d); [discriminate|]. now apply IH.
Qed.

Lemma split_char_first_absent c s :
  Py.mem_char c s = false ->
  Py.first_item (Py.split (String c EmptyString) s) = s.
Proof.
  intros H. unfold Py.split. now rewrite split_scan_char_absent.
Qed.

(** *** File names *)

(** The file name before the query is cut and the suffix added (lines
    91-95). *)
Lemma headers_mem_get name h :
  headers_mem name h = match headers_get name h with Some _ => true | None => false end.
Proof. reflexivity. Qed.

Lemma path_component_long a b f : path_component (String a (String b f)) = true.
Proof.
  unfold path_component. cbn [Py.truthy andb String.eqb].
  destruct (Ascii.eqb a _); reflexivity.
Qed.

Lemma endswith_pdf_long f :
  Py.endswith ".pdf" f = true -> path_component f = true.
Proof.
  destruct f as [|a [|b f]].
  - discriminate.
  - unfold Py.endswith, Py.rev. cbn -[ascii_dec].
    destruct (ascii_dec _ _); discriminate.
  - intros _. apply path_component_long.
Qed.

Lemma lower_component f : path_component (Py.lower f) = path_component f.
Proof.
  destruct f as [|a [|b f]]; [reflexivity| |].
  - destruct a as [[] [] [] [] [] [] [] []]; reflexivity.
  - cbn [Py.lower]. now rewrite !path_component_long.
Qed.

Lemma with_pdf_component f : path_component (f +:+ ".pdf") = true.
Proof.
  destruct f as [|a f]; [reflexivity|].
  destruct f as [|b f]; apply path_component_long.
Qed.

(** The derived name is never empty and never the single dot: as a path it
    is one component when it has no slash. *)
Lemma get_pdf_filename_component url r :
  path_component (get_pdf_filename url r) = true.
Proof.
  unfold get_pdf_filename.
  match goal with
  | |- context [Py.endswith ".pdf" (Py.lower ?f)] =>
      destruct (Py.endswith ".pdf" (Py.lower f)) eqn:E; simpl
  end.
  - apply endswith_pdf_long in E. now rewrite lower_component in E.
  - apply with_pdf_component.
Qed.

Lemma get_pdf_filename_unnamed url r :
  names_file r = false ->
  get_pdf_filename url r =
  let filename := Py.first_item (Py.split "?" (Py.last_item (Py.split "/" url))) in
  if Py.endswith ".pdf" (Py.lower filename) then filename else filename +:+ ".pdf".
Proof.
  unfold names_file, get_pdf_filename. rewrite headers_mem_get.
  destruct (headers_get "Content-Disposition" (headers r)) as [cd|]; simpl.
  - intros ->. destruct (Py.endswith _ _); reflexivity.
  - intros _. destruct (Py.endswith _ _); reflexivity.
Qed.

(** Without a [filename=] in Content-Disposition the name comes from the
    URL and contains no slash. *)
Lemma get_pdf_filename_no_slash url r :
  names_file r = false ->
  Py.mem_char "/" (get_pdf_filename url r) = false.
Proof.
  intros H. rewrite (get_pdf_filename_unnamed url r H). cbv zeta.
  set (seg := Py.last_item (Py.split "/" url)).
  assert (Hseg : Py.mem_char "/" seg = false).
  { destruct (Py.mem_char "/" seg) eqn:E; [|reflexivity].
    assert (Hin : In seg (Py.split "/" url)).
    { apply last_item_in, split_scan_not_nil. }
    apply (split_scan_char_pieces "/" EmptyString url seg Hin) in E. discriminate. }
  set (name := Py.first_item (Py.split "?" seg)).
  assert (Hname : Py.mem_char "/" name = false).
  { destruct (Py.mem_char "/" name) eqn:E; [|reflexivity].
    assert (Hin : In name (Py.split "?" seg)).
    { apply first_item_in, split_scan_not_nil. }
    destruct (split_scan_chars "/" "?" O EmptyString seg name Hin E) as [H1|H1];
      [discriminate | congruence]. }
  destruct (Py.endswith ".pdf" (Py.lower name)); [exact Hname|].
  rewrite mem_char_app, Hname. reflexivity.
Qed.

(** *** Paths *)

Lemma startswith_mem_char c p s :
  Py.startswith (String c p) s = true -> Py.mem_char c s = true.
Proof.
  destruct s as [|a s]; [discriminate|]. cbn -[ascii_dec].
  destruct (ascii_dec c a); [reflexivity | discriminate].
Qed.

Lemma Path_of_simple_name f :
  Py.mem_char "/" f = false ->
  path_component f = true ->
  Path_of f = {| root := EmptyString; parts := [f] |}.
Proof.
  intros Hs Hc. unfold Path_of, Py.split.
  rewrite split_scan_char_absent by exact Hs.
  cbn [Py.rev_onto List.filter]. rewrite Hc.
  assert (H1 : Py.startswith "/" f = false).
  { destruct (Py.startswith "/" f) eqn:E; [|reflexivity].
    apply startswith_mem_char in E. congruence. }
  assert (H2 : Py.startswith "//" f = false).
  { destruct (Py.startswith "//" f) eqn:E; [|reflexivity].
    apply startswith_mem_char in E. congruence. }
  now rewrite H1, H2.
Qed.

(** A name without a slash is put directly under the directory. *)
Lemma joinpath_simple_name d f :
  Py.mem_char "/" f = false ->
  path_component f = true ->
  joinpath d f = {| root := root d; parts := parts d ++ [f] |} /\
  parent (joinpath d f) = {| root := root d; parts := parts d |}.
Proof.
  intros Hs Hc. unfold joinpath. rewrite (Path_of_simple_name f Hs Hc). simpl.
  split; [reflexivity|]. unfold parent. simpl. now rewrite removelast_last.
Qed.

(** The name derived from the URL alone is put directly under [pdfs]. *)
Lemma url_named_file_in_pdfs url r :
  names_file r = false ->
  parent (joinpath (Path_of "pdfs") (get_pdf_filename url r)) = Path_of "pdfs".
Proof.
  intros H.
  apply (joinpath_simple_name (Path_of "pdfs")).
  - now apply get_pdf_filename_no_slash.
  - apply get_pdf_filename_component.
Qed.

(** Where the query of the URL has no slash, the code derives the name the
    specification describes. *)
Lemma get_pdf_filename_meets_spec a q r :
  Py.mem_char "?" a = false ->
  Py.mem_char "/" q = false ->
  q = EmptyString \/ Py.startswith "?" q = true ->
  get_pdf_filename (a +:+ q) r = spec_filename (a +:+ q) r.
Proof.
  intros Ha Hq Hstart.
  assert (Hseg : Py.mem_char "?" (Py.last_item (Py.split "/" a)) = false).
  { destruct (Py.mem_char "?" (Py.last_item (Py.split "/" a))) eqn:E; [|reflexivity].
    assert (Hin : In (Py.last_item (Py.split "/" a)) (Py.split "/" a)).
    { apply last_item_in, split_scan_not_nil. }
    destruct (split_scan_chars "?" "/" O EmptyString a _ Hin E) as [H1|H1];
      [discriminate | congruence]. }
  assert (Hbase :
    Py.first_item (Py.split "?" (Py.last_item (Py.split "/" (a +:+ q))))
    = Py.first_item (Py.split "?" (url_last_path_segment (a +:+ q)))).
  { unfold url_last_path_segment, Py.split in *.
    rewrite (split_char_first_app "?" EmptyString a q Ha Hstart). simpl.
    rewrite (split_char_last_app "/" EmptyString a q Hq).
    rewrite (split_char_first_app "?" EmptyString _ q Hseg Hstart). simpl.
    now rewrite (split_scan_char_absent "?" EmptyString _ Hseg). }
  unfold get_pdf_filename, spec_filename. rewrite headers_mem_get.
  destruct (headers_get "Content-Disposition" (headers r)) as [cd|]; simpl.
  - destruct (Py.contains "filename=" cd).
    + destruct (Py.endswith _ _); reflexivity.
    + rewrite Hbase. destruct (Py.endswith _ _); reflexivity.
  - rewrite Hbase. destruct (Py.endswith _ _); reflexivity.
Qed.

Section Properties.

Variable env : Env.

(** *** Computations step by step *)

Lemma bind_returned {A B} (c : M A) (k : A -> M B) w a w1 :
  c w = (Returned a, w1) -> bind c k w = k a w1.
Proof. intros H. unfold bind. now rewrite H. Qed.

Lemma bind_raised {A B} (c : M A) (k : A -> M B) w e w1 :
  c w = (Raised e, w1) -> bind c k w = (Raised e, w1).
Proof. intros H. unfold bind. now rewrite H. Qed.

Lemma try_returned {A} (c : M A) h w a w1 :
  c w = (Returned a, w1) -> try_except c h w = (Returned a, w1).
Proof. intros H. unfold try_except. now rewrite H. Qed.

Lemma try_raised {A} (c : M A) h w e w1 :
  c w = (Raised e, w1) -> try_except c h w = h e w1.
Proof. intros H. unfold try_except. now rewrite H. Qed.

(** A handler that returns makes the whole [try] return. *)
Lemma try_except_total {A} (c : M A) (d : A) w :
  exists a w', try_except c (fun _ => ret d) w = (Returned a, w').
Proof.
  unfold try_except. destruct (c w) as [[a|e] w']; eauto.
Qed.

(** *** The transport *)

Lemma urlopen_fs s m url left w :
  fs (urlopen env s m url left w).2 = fs w.
Proof.
  revert w. induction left as [|k IH]; intros w; simpl.
  - destruct (net env (trace w) m url) as [|r]; [reflexivity|].
    destruct (existsb _ _); reflexivity.
  - destruct (net env (trace w) m url) as [|r].
    + now rewrite IH.
    + destruct (existsb _ _); [now rewrite IH | reflexivity].
Qed.

(** Every event of one call of the adapter is a request of that session,
    with that method, to that address; there is at least one and at most
    one more than the retries allowed. *)
Lemma urlopen_trace s m url left w :
  exists k, (k <= left)%nat /\
    trace (urlopen env s m url left w).2 = trace w ++ repeat (Wire s m url) (S k).
Proof.
  revert w. induction left as [|n IH]; intros w; simpl.
  - exists O. split; [lia|].
    destruct (net env (trace w) m url) as [|r]; [reflexivity|].
    destruct (existsb _ _); reflexivity.
  - assert (Hrec : exists k, (k <= S n)%nat /\
      trace (urlopen env s m url n
               {| fs := fs w; trace := trace w ++ [Wire s m url] |}).2
      = trace w ++ repeat (Wire s m url) (S k)).
    { destruct (IH {| fs := fs w; trace := trace w ++ [Wire s m url] |})
        as (k & Hk & Ht).
      exists (S k). split; [lia|]. rewrite Ht. simpl.
      rewrite <- app_assoc. reflexivity. }
    destruct (net env (trace w) m url) as [|r]; [exact Hrec|].
    destruct (existsb _ _); [exact Hrec|].
    exists O. split; [lia|]. reflexivity.
Qed.

(** A response that the adapter returns is not on the status list. *)
Lemma urlopen_status s m url left w r w1 :
  urlopen env s m url left w = (Returned r, w1) ->
  existsb (Z.eqb (status_code r)) (status_forcelist (max_retries s)) = false.
Proof.
  revert w. induction left as [|n IH]; intros w; simpl.
  - destruct (net env (trace w) m url) as [|r0]; [discriminate|].
    destruct (existsb (Z.eqb (status_code r0)) _) eqn:E; [discriminate|].
    intros [= <- _]. exact E.
  - destruct (net env (trace w) m url) as [|r0]; [apply IH|].
    destruct (existsb (Z.eqb (status_code r0)) _) eqn:E; [apply IH|].
    intros [= <- _]. exact E.
Qed.

Lemma request_head s url stream w :
  request env s HEAD url stream w = urlopen env s HEAD url (total (max_retries s)) w.
Proof.
  unfold request, bind.
  destruct (urlopen _ _ _ _ _ _) as [[r|e] w1]; reflexivity.
Qed.

Lemma request_stream s url w :
  request env s GET url true w = urlopen env s GET url (total (max_retries s)) w.
Proof.
  unfold request, bind.
  destruct (urlopen _ _ _ _ _ _) as [[r|e] w1]; reflexivity.
Qed.

Lemma read_body_fs url chunks w : fs (read_body url chunks w).2 = fs w.
Proof.
  revert w. induction chunks as [|c cs IH]; intros w; [reflexivity|].
  simpl. unfold bind, emit. simpl. now rewrite IH.
Qed.

Lemma request_fs s m url stream w :
  fs (request env s m url stream w).2 = fs w.
Proof.
  unfold request, bind.
  pose proof (urlopen_fs s m url (total (max_retries s)) w) as H.
  destruct (urlopen _ _ _ _ _ _) as [[r|e] w1]; simpl in *; [|exact H].
  destruct m; [|exact H].
  destruct stream; [exact H|].
  pose proof (read_body_fs url (body_chunks r) w1) as Hb.
  destruct (read_body _ _ _) as [[[]|e] w2]; simpl in *; [|congruence].
  destruct (body_broken r); simpl; congruence.
Qed.

Lemma raise_for_status_ok r w :
  http_error r = false -> raise_for_status r w = (Returned tt, w).
Proof. intros H. unfold raise_for_status. now rewrite H. Qed.

Lemma raise_for_status_error r w :
  http_error r = true -> raise_for_status r w = (Raised (HTTPError (status_code r)), w).
Proof. intros H. unfold raise_for_status. now rewrite H. Qed.



(** *** The file operations *)

Lemma write_body_spec p url chunks w old :
  fs w !! path_str p = Some (File old) ->
  exists w', write_body p url chunks w = (Returned tt, w') /\
    fs w' = <[path_str p := File (old ++ concat chunks)]> (fs w) /\
    trace w' = trace w ++ map (fun data => Recv url (length data)) chunks.
Proof.
  revert w old. induction chunks as [|c cs IH]; intros w old Hold.
  - exists w. simpl. rewrite !app_nil_r. split; [reflexivity|]. split; [|reflexivity].
    symmetry. now apply insert_id.
  - simpl. unfold bind, emit, write, get_fs, put_fs, ret. simpl. rewrite Hold.
    set (w1 := {| fs := _; trace := _ |}).
    destruct (IH w1 (old ++ c)) as (w' & Hrun & Hfs & Htr).
    { subst w1. simpl. apply lookup_insert_eq. }
    exists w'. split; [exact Hrun|]. split.
    + rewrite Hfs. subst w1. simpl. rewrite insert_insert_eq, <- app_assoc. reflexivity.
    + rewrite Htr. subst w1. simpl. rewrite <- app_assoc. reflexivity.
Qed.


Lemma header_int_pure name r w o w' :
  header_int name r w = (o, w') -> w' = w.
Proof.
  unfold header_int. destruct (headers_get name (headers r)) as [v|].
  - destruct (Py.int v); unfold ret, raise; congruence.
  - unfold ret; congruence.
Qed.


Lemma header_int_absent name r w :
  headers_get name (headers r) = None -> header_int name r w = (Returned 0, w).
Proof. intros H1. unfold header_int. now rewrite H1. Qed.

(** *** The skip test *)

Lemma already_complete_absent p r w :
  fs w !! path_str p = None -> already_complete env p r w = (Returned false, w).
Proof.
  intros H. unfold already_complete, bind, path_exists, get_fs, ret. simpl.
  now rewrite H.
Qed.

Lemma already_complete_file p r w data n :
  fs w !! path_str p = Some (File data) ->
  header_int "content-length" r w = (Returned n, w) ->
  already_complete env p r w = (Returned (Z.of_nat (length data) =? n), w).
Proof.
  intros H Hn. unfold already_complete, path_exists, st_size, get_fs, bind, ret. simpl.
  rewrite H. simpl. rewrite H. simpl. now rewrite Hn.
Qed.

(** *** [download_pdf], phase by phase *)

Lemma download_pdf_head_raises url out w e w1 :
  request env session HEAD url false w = (Raised e, w1) ->
  download_pdf env url out w = (Returned None, w1).
Proof.
  intros H. unfold download_pdf. erewrite try_raised; [reflexivity|].
  apply bind_raised. exact H.
Qed.

Lemma download_pdf_head_rejected url out w r w1 :
  request env session HEAD url false w = (Returned r, w1) ->
  http_error r = true ->
  download_pdf env url out w = (Returned None, w1).
Proof.
  intros H He. unfold download_pdf. erewrite try_raised; [reflexivity|].
  erewrite bind_returned by exact H.
  apply bind_raised. apply raise_for_status_error. exact He.
Qed.

Lemma download_pdf_skipped url out w r w1 :
  request env session HEAD url false w = (Returned r, w1) ->
  http_error r = false ->
  already_complete env (joinpath out (get_pdf_filename url r)) r w1 = (Returned true, w1) ->
  download_pdf env url out w = (Returned (Some (joinpath out (get_pdf_filename url r))), w1).
Proof.
  intros H He Hs. unfold download_pdf. apply try_returned.
  erewrite bind_returned by exact H.
  erewrite bind_returned by (now apply raise_for_status_ok).
  erewrite bind_returned by exact Hs. reflexivity.
Qed.

Lemma download_pdf_transfers url out w r w1 :
  request env session HEAD url false w = (Returned r, w1) ->
  http_error r = false ->
  already_complete env (joinpath out (get_pdf_filename url r)) r w1 = (Returned false, w1) ->
  download_pdf env url out w =
  try_except (transfer env url (joinpath out (get_pdf_filename url r)))
             (fun _ => ret None) w1.
Proof.
  intros H He Hs. unfold download_pdf, try_except.
  erewrite bind_returned by exact H.
  erewrite bind_returned by (now apply raise_for_status_ok).
  erewrite bind_returned by exact Hs. reflexivity.
Qed.

Lemma open_wb_returns p w w' :
  open_wb p w = (Returned tt, w') ->
  w' = {| fs := <[path_str p := File []]> (fs w); trace := trace w |}.
Proof.
  unfold open_wb, get_fs, put_fs, bind, raise. simpl.
  destruct (parts p); [discriminate|].
  destruct (fs w !! path_str p) as [[d|]|]; try discriminate;
    destruct (dir_status (fs w) (parent p)); congruence.
Qed.

Lemma transfer_get_raises url p w e w1 :
  request env session GET url true w = (Raised e, w1) ->
  transfer env url p w = (Raised e, w1).
Proof. intros H. unfold transfer. apply bind_raised. exact H. Qed.

Lemma transfer_get_rejected url p w g w1 :
  request env session GET url true w = (Returned g, w1) ->
  http_error g = true ->
  transfer env url p w = (Raised (HTTPError (status_code g)), w1).
Proof.
  intros H He. unfold transfer. erewrite bind_returned by exact H.
  apply bind_raised. apply raise_for_status_error. exact He.
Qed.

Lemma transfer_copies url p w g w1 n w2 :
  request env session GET url true w = (Returned g, w1) ->
  http_error g = false ->
  header_int "content-length" g w1 = (Returned n, w1) ->
  open_wb p w1 = (Returned tt, w2) ->
  transfer env url p w =
  if body_broken g
  then (Raised ChunkedEncodingError, after_copy p url g w1)
  else (Returned (Some p),
        {| fs := fs (after_copy p url g w1);
           trace := trace (after_copy p url g w1) ++ [Sleep 500] |}).
Proof.
  intros H He Hn Ho. unfold transfer.
  erewrite bind_returned by exact H.
  erewrite bind_returned by (apply raise_for_status_ok; exact He).
  erewrite bind_returned by exact Hn.
  erewrite bind_returned by exact Ho.
  pose proof (open_wb_returns _ _ _ Ho) as ->.
  destruct (write_body_spec p url (body_chunks g)
              {| fs := <[path_str p := File []]> (fs w1); trace := trace w1 |} [])
    as (w3 & Hrun & Hfs & Htr).
  { simpl. apply lookup_insert_eq. }
  erewrite bind_returned by exact Hrun.
  simpl in Hfs, Htr. rewrite insert_insert_eq in Hfs.
  assert (w3 = after_copy p url g w1) as ->.
  { destruct w3 as [f3 t3]. unfold after_copy. simpl in *. congruence. }
  destruct (body_broken g); reflexivity.
Qed.

(** *** Traces only grow *)

Create HintDb trace_grows.

Lemma appends_ret {A} (a : A) : appends (ret a).
Proof. intros w. exists []. simpl. now rewrite app_nil_r. Qed.

Lemma appends_raise {A} (e : exn) : appends (@raise A e).
Proof. intros w. exists []. simpl. now rewrite app_nil_r. Qed.

Lemma appends_emit ev : appends (emit ev).
Proof. intros w. exists [ev]. reflexivity. Qed.

Lemma appends_bind {A B} (c : M A) (k : A -> M B) :
  appends c -> (forall a, appends (k a)) -> appends (bind c k).
Proof.
  intros Hc Hk w. unfold bind. destruct (Hc w) as [t Ht].
  destruct (c w) as [[a|e] w1]; simpl in Ht.
  - destruct (Hk a w1) as [t' Ht']. exists (t ++ t').
    rewrite Ht', Ht. now rewrite app_assoc.
  - exists t. exact Ht.
Qed.

Lemma appends_try {A} (c : M A) (h : exn -> M A) :
  appends c -> (forall e, appends (h e)) -> appends (try_except c h).
Proof.
  intros Hc Hh w. unfold try_except. destruct (Hc w) as [t Ht].
  destruct (c w) as [[a|e] w1]; simpl in Ht.
  - exists t. exact Ht.
  - destruct (Hh e w1) as [t' Ht']. exists (t ++ t').
    rewrite Ht', Ht. now rewrite app_assoc.
Qed.

Lemma appends_urlopen s m url left : appends (urlopen env s m url left).
Proof.
  intros w. destruct (urlopen_trace s m url left w) as (k & _ & Hk). eauto.
Qed.

Lemma appends_get_fs : appends get_fs.
Proof. intros w. exists []. simpl. now rewrite app_nil_r. Qed.

Lemma appends_put_fs f : appends (put_fs f).
Proof. intros w. exists []. simpl. now rewrite app_nil_r. Qed.

#[local] Hint Resolve appends_ret appends_raise appends_emit appends_get_fs
  appends_put_fs appends_urlopen : trace_grows.

Lemma appends_header_int name r : appends (header_int name r).
Proof.
  unfold header_int. destruct (headers_get name (headers r)) as [v|];
    [destruct (Py.int v)|]; auto with trace_grows.
Qed.

Lemma appends_raise_for_status r : appends (raise_for_status r).
Proof.
  unfold raise_for_status. destruct (http_error r); auto with trace_grows.
Qed.

Lemma appends_open_wb p : appends (open_wb p).
Proof.
  unfold open_wb. apply appends_bind; [auto with trace_grows|]. intros f.
  destruct (parts p); [auto with trace_grows|].
  destruct (f !! path_str p) as [[d|]|]; try apply appends_raise;
    destruct (dir_status f (parent p)); auto with trace_grows.
Qed.

Lemma appends_write p data : appends (write p data).
Proof.
  unfold write. apply appends_bind; [auto with trace_grows|]. intros f.
  apply appends_bind; auto with trace_grows.
Qed.

Lemma appends_write_body p url chunks : appends (write_body p url chunks).
Proof.
  induction chunks as [|c cs IH]; simpl; [auto with trace_grows|].
  apply appends_bind; [auto with trace_grows|]. intros _.
  apply appends_bind; [apply appends_write|]. intros _. exact IH.
Qed.

#[local] Hint Resolve appends_header_int appends_raise_for_status appends_open_wb
  appends_write appends_write_body : trace_grows.

Lemma starts_bind {A B} (c : M A) (k : A -> M B) ev w :
  (exists t, trace (c w).2 = trace w ++ ev :: t) ->
  (forall a, appends (k a)) ->
  exists t, trace (bind c k w).2 = trace w ++ ev :: t.
Proof.
  intros [t Ht] Hk. unfold bind. destruct (c w) as [[a|e] w1]; simpl in Ht.
  - destruct (Hk a w1) as [t' Ht']. exists (t ++ t').
    rewrite Ht', Ht. rewrite <- app_assoc. reflexivity.
  - exists t. exact Ht.
Qed.

Lemma starts_try {A} (c : M A) (h : exn -> M A) ev w :
  (exists t, trace (c w).2 = trace w ++ ev :: t) ->
  (forall e, appends (h e)) ->
  exists t, trace (try_except c h w).2 = trace w ++ ev :: t.
Proof.
  intros [t Ht] Hh. unfold try_except. destruct (c w) as [[a|e] w1]; simpl in Ht.
  - exists t. exact Ht.
  - destruct (Hh e w1) as [t' Ht']. exists (t ++ t').
    rewrite Ht', Ht. rewrite <- app_assoc. reflexivity.
Qed.

(** The first event of the transfer is the streaming request. *)
Lemma transfer_trace url p w :
  exists rest, trace (transfer env url p w).2 = trace w ++ Wire session GET url :: rest.
Proof.
  unfold transfer. apply starts_bind.
  - rewrite request_stream.
    destruct (urlopen_trace session GET url (total (max_retries session)) w)
      as (k & _ & Hk).
    exists (repeat (Wire session GET url) k). exact Hk.
  - intros g.
    do 4 (apply appends_bind; [solve [auto with trace_grows]|]; intros _).
    apply appends_bind;
      [destruct (body_broken g); auto with trace_grows|].
    intros _. apply appends_bind; [apply appends_emit | auto with trace_grows].
Qed.

(** *** Who sends the requests *)

Lemma emits_ret {A} P (a : A) : emits P (ret a).
Proof. intros w. exists []. simpl. now rewrite app_nil_r. Qed.

Lemma emits_raise {A} P (e : exn) : emits P (@raise A e).
Proof. intros w. exists []. simpl. now rewrite app_nil_r. Qed.

Lemma emits_emit (P : Event -> Prop) ev : P ev -> emits P (emit ev).
Proof. intros H w. exists [ev]. split; [reflexivity | now constructor]. Qed.

Lemma emits_bind {A B} P (c : M A) (k : A -> M B) :
  emits P c -> (forall a, emits P (k a)) -> emits P (bind c k).
Proof.
  intros Hc Hk w. unfold bind. destruct (Hc w) as (t & Ht & HP).
  destruct (c w) as [[a|e] w1]; simpl in Ht.
  - destruct (Hk a w1) as (t' & Ht' & HP'). exists (t ++ t'). split.
    + rewrite Ht', Ht. now rewrite app_assoc.
    + now apply Forall_app.
  - exists t. now split.
Qed.

Lemma emits_try {A} P (c : M A) (h : exn -> M A) :
  emits P c -> (forall e, emits P (h e)) -> emits P (try_except c h).
Proof.
  intros Hc Hh w. unfold try_except. destruct (Hc w) as (t & Ht & HP).
  destruct (c w) as [[a|e] w1]; simpl in Ht.
  - exists t. now split.
  - destruct (Hh e w1) as (t' & Ht' & HP'). exists (t ++ t'). split.
    + rewrite Ht', Ht. now rewrite app_assoc.
    + now apply Forall_app.
Qed.

Lemma emits_weaken {A} (P Q : Event -> Prop) (c : M A) :
  (forall ev, P ev -> Q ev) -> emits P c -> emits Q c.
Proof.
  intros HPQ Hc w. destruct (Hc w) as (t & Ht & HP).
  exists t. split; [exact Ht|]. eapply Forall_impl; eauto.
Qed.

Lemma emits_urlopen (P : Event -> Prop) s m url left :
  P (Wire s m url) -> emits P (urlopen env s m url left).
Proof.
  intros H w. destruct (urlopen_trace s m url left w) as (k & _ & Hk).
  eexists. split; [exact Hk|]. apply Forall_forall. intros ev Hin.
  apply list_elem_of_In, repeat_spec in Hin. now subst.
Qed.

Lemma emits_read_body (P : Event -> Prop) url chunks :
  (forall n, P (Recv url n)) -> emits P (read_body url chunks).
Proof.
  intros H. induction chunks as [|c cs IH]; simpl; [apply emits_ret|].
  apply emits_bind; [now apply emits_emit | intros _; exact IH].
Qed.

(** Every request of [s.request] is sent by the session [s]. *)
Lemma emits_request s m url stream :
  emits (by_session s) (request env s m url stream).
Proof.
  unfold request. apply emits_bind; [now apply emits_urlopen|]. intros r.
  destruct m; [|apply emits_ret].
  destruct stream; [apply emits_ret|].
  apply emits_bind; [now apply emits_read_body|]. intros _.
  destruct (body_broken r); [apply emits_raise | apply emits_ret].
Qed.

Lemma emits_pure_fs {A} P (f : gmap string Node -> M A) :
  (forall g, emits P (f g)) -> emits P (bind get_fs f).
Proof. intros H w. unfold bind, get_fs. apply H. Qed.

Lemma emits_put_fs P f : emits P (put_fs f).
Proof. intros w. exists []. simpl. now rewrite app_nil_r. Qed.

Lemma emits_header_int P name r : emits P (header_int name r).
Proof.
  unfold header_int. destruct (headers_get name (headers r)) as [v|];
    [destruct (Py.int v)|]; auto using emits_ret, emits_raise.
Qed.

Lemma emits_raise_for_status P r : emits P (raise_for_status r).
Proof.
  unfold raise_for_status. destruct (http_error r); auto using emits_ret, emits_raise.
Qed.

Lemma emits_already_complete P p r : emits P (already_complete env p r).
Proof.
  unfold already_complete, path_exists, st_size.
  apply emits_bind; [apply emits_pure_fs; intros g; apply emits_ret|].
  intros [|]; [|apply emits_ret].
  apply emits_bind.
  - apply emits_pure_fs. intros g.
    destruct (g !! path_str p) as [[d|]|]; auto using emits_ret, emits_raise.
  - intros n. apply emits_bind; [apply emits_header_int|]. intros z. apply emits_ret.
Qed.

Lemma emits_open_wb P p : emits P (open_wb p).
Proof.
  unfold open_wb. apply emits_pure_fs. intros f.
  destruct (parts p); [apply emits_raise|].
  destruct (f !! path_str p) as [[d|]|]; try apply emits_raise;
    destruct (dir_status f (parent p)); auto using emits_raise, emits_put_fs.
Qed.

Lemma emits_write_body (P : Event -> Prop) p url chunks :
  (forall n, P (Recv url n)) -> emits P (write_body p url chunks).
Proof.
  intros H. induction chunks as [|c cs IH]; simpl; [apply emits_ret|].
  apply emits_bind; [now apply emits_emit|]. intros _.
  apply emits_bind; [|intros _; exact IH].
  unfold write. apply emits_pure_fs. intros f.
  apply emits_bind; [apply emits_put_fs | intros _; apply emits_ret].
Qed.

(** Every request of [download_pdf] is sent by the shared session. *)
Lemma download_pdf_by_session url out :
  emits (by_session session) (download_pdf env url out).
Proof.
  unfold download_pdf. apply emits_try; [|intros _; apply emits_ret].
  apply emits_bind; [apply emits_request|]. intros r.
  apply emits_bind; [apply emits_raise_for_status|]. intros _.
  apply emits_bind; [apply emits_already_complete|]. intros [|]; [apply emits_ret|].
  unfold transfer.
  apply emits_bind; [apply emits_request|]. intros g.
  apply emits_bind; [apply emits_raise_for_status|]. intros _.
  apply emits_bind; [apply emits_header_int|]. intros _.
  apply emits_bind; [apply emits_open_wb|]. intros _.
  apply emits_bind; [now apply emits_write_body|]. intros _.
  apply emits_bind; [destruct (body_broken g); [apply emits_raise | apply emits_ret]|].
  intros _. apply emits_bind; [now apply emits_emit | intros _; apply emits_ret].
Qed.

(** *** The skip test and the download *)


(** C6, on the code: without a content-length on the HEAD response the
    expected size is 0, so an empty file at the target path passes the skip
    test: [download_pdf] returns its path and sends no GET. *)
Theorem download_pdf_skips_empty_file_without_length
    (url : string) (out : Path) (w w1 : World) (r : Response) :
  let p := joinpath out (get_pdf_filename url r) in
  request env session HEAD url false w = (Returned r, w1) ->
  http_error r = false ->
  headers_get "content-length" (headers r) = None ->
  fs w !! path_str p = Some (File []) ->
  download_pdf env url out w = (Returned (Some p), w1) /\
  fs w1 = fs w /\
  exists k, trace w1 = trace w ++ repeat (Wire session HEAD url) (S k).
Proof.
  intros p Hhead Hok Hnone Hfile.
  assert (Hfs1 : fs w1 = fs w).
  { pose proof (request_fs session HEAD url false w) as H. now rewrite Hhead in H. }
  split; [|split; [exact Hfs1|]].
  - apply download_pdf_skipped; [exact Hhead|exact Hok|].
    fold p. rewrite (already_complete_file p r w1 [] 0).
    + reflexivity.
    + now rewrite Hfs1.
    + now apply header_int_absent.
  - rewrite request_head in Hhead.
    destruct (urlopen_trace session HEAD url (total (max_retries session)) w)
      as (k & _ & Hk).
    rewrite Hhead in Hk. now exists k.
Qed.

(** Without a content-length, a file that is not empty never passes the
    skip test: the streaming GET follows the HEAD request. *)
Lemma download_pdf_fetches_again_without_length
    (url : string) (out : Path) (w w1 : World) (r : Response) (data : list Byte.byte) :
  request env session HEAD url false w = (Returned r, w1) ->
  http_error r = false ->
  headers_get "content-length" (headers r) = None ->
  fs w !! path_str (joinpath out (get_pdf_filename url r)) = Some (File data) ->
  data <> [] ->
  exists rest,
    trace (download_pdf env url out w).2 = trace w1 ++ Wire session GET url :: rest.
Proof.
  intros Hhead Hok Hnone Hfile Hdata.
  assert (Hfs1 : fs w1 = fs w).
  { pose proof (request_fs session HEAD url false w) as H. now rewrite Hhead in H. }
  assert (Hdec : already_complete env (joinpath out (get_pdf_filename url r)) r w1
                 = (Returned false, w1)).
  { rewrite (already_complete_file _ r w1 data 0).
    - destruct data; [congruence | reflexivity].
    - now rewrite Hfs1.
    - now apply header_int_absent. }
  rewrite (download_pdf_transfers url out w r w1 Hhead Hok Hdec).
  apply starts_try; [apply transfer_trace|]. intros e. apply appends_ret.
Qed.


(** *** Resolution *)

Lemma probe_trace u w :
  trace (probe env u w).2 = trace w ++ [Wire requests_default HEAD u].
Proof.
  unfold probe, bind. rewrite request_head. simpl.
  destruct (net env (trace w) HEAD u) as [|r]; reflexivity.
Qed.

Lemma probe_fs u w : fs (probe env u w).2 = fs w.
Proof.
  unfold probe, bind. pose proof (request_fs requests_default HEAD u false w) as H.
  destruct (request _ _ _ _ _ _) as [[r|e] w1]; exact H.
Qed.

Lemma first_verified_app_none l1 l2 w w1 res w' :
  first_verified env l1 w None w1 ->
  first_verified env l2 w1 res w' ->
  first_verified env (l1 ++ l2) w res w'.
Proof.
  intros H1. remember None as r eqn:Er. revert Er.
  induction H1 as [w|u rest w w0 Hp|u rest w w0 r w2 Hp H IH|u rest w e w0 r w2 Hp H IH];
    intros Er H2; simpl.
  - exact H2.
  - discriminate.
  - eapply fv_miss; eauto.
  - eapply fv_fail; eauto.
Qed.

Lemma first_verified_app_some l1 l2 w u w' :
  first_verified env l1 w (Some u) w' ->
  first_verified env (l1 ++ l2) w (Some u) w'.
Proof.
  intros H1. remember (Some u) as r eqn:Er. revert Er.
  induction H1 as [w|x rest w w0 Hp|x rest w w0 r w2 Hp H IH|x rest w e w0 r w2 Hp H IH];
    intros Er; simpl.
  - discriminate.
  - injection Er as ->. now apply fv_hit.
  - eapply fv_miss; eauto.
  - eapply fv_fail; eauto.
Qed.

(** Probing in order has one result. *)
Lemma first_verified_functional l w res1 w1 res2 w2 :
  first_verified env l w res1 w1 ->
  first_verified env l w res2 w2 ->
  res1 = res2 /\ w1 = w2.
Proof.
  intros H1. revert res2 w2.
  induction H1 as [w|u rest w w0 Hp|u rest w w0 r w3 Hp H IH|u rest w e w0 r w3 Hp H IH];
    intros res2 w2 H2; inversion H2; subst;
    try (split; congruence); try congruence.
  - apply IH. congruence.
  - apply IH. congruence.
Qed.

Lemma before_failure_app l1 l2 :
  exists t, before_failure (l1 ++ l2) = before_failure l1 ++ t.
Proof.
  induction l1 as [|[u|] l1 [t IH]]; simpl.
  - now exists (before_failure l2).
  - exists t. now rewrite IH.
  - now exists [].
Qed.

Lemma before_failure_all l1 l2 :
  ~ In None l1 -> before_failure (l1 ++ l2) = before_failure l1 ++ before_failure l2.
Proof.
  induction l1 as [|[u|] l1 IH]; simpl; intros H.
  - reflexivity.
  - rewrite IH; [reflexivity|]. intros Hin. apply H. now right.
  - destruct H. now left.
Qed.

Lemma before_failure_cut l1 l2 :
  In None l1 -> before_failure (l1 ++ l2) = before_failure l1.
Proof.
  induction l1 as [|[u|] l1 IH]; simpl; intros H.
  - destruct H.
  - destruct H as [H|H]; [discriminate|]. now rewrite IH.
  - reflexivity.
Qed.

(** The loop over the links of a pattern probes their targets in order and
    stops at the first that verifies, or at the first join that raises. *)
Lemma scan_links_first_verified url links w :
  exists o res w',
    scan_links env url links w = (o, w') /\
    first_verified env (before_failure (omap (target env url) links)) w res w' /\
    ((exists u, o = Returned (Some u) /\ res = Some u) \/
     (o = Returned None /\ res = None /\ ~ In None (omap (target env url) links)) \/
     (o = Raised ValueError /\ res = None /\ In None (omap (target env url) links))).
Proof.
  revert w. induction links as [|link rest IH]; intros w.
  - exists (Returned None), None, w. split; [reflexivity|]. split; [constructor|].
    right. left. simpl. auto.
  - cbn [scan_links].
    change (omap (target env url) (link :: rest))
      with (match target env url link with
            | Some y => y :: omap (target env url) rest
            | None => omap (target env url) rest
            end).
    destruct (a_href link) as [href|] eqn:Eh.
    2:{ replace (target env url link) with (@None (option string))
          by (unfold target; now rewrite Eh).
        apply IH. }
    destruct (Py.truthy href) eqn:Et.
    2:{ replace (target env url link) with (@None (option string))
          by (unfold target; now rewrite Eh, Et).
        apply IH. }
    replace (target env url link) with (Some (urljoin env url href))
      by (unfold target; now rewrite Eh, Et).
    destruct (urljoin env url href) as [full_url|].
    2:{ exists (Raised ValueError), None, w. split; [reflexivity|].
        split; [constructor|]. right. right. simpl. auto. }
    unfold bind, try_except. cbn [before_failure].
    assert (Hnext : forall w1,
      (forall res w', first_verified env
           (before_failure (omap (target env url) rest)) w1 res w' ->
         first_verified env
           (full_url :: before_failure (omap (target env url) rest)) w res w') ->
      exists o res w',
        scan_links env url rest w1 = (o, w') /\
        first_verified env
          (full_url :: before_failure (omap (target env url) rest)) w res w' /\
        ((exists u, o = Returned (Some u) /\ res = Some u) \/
         (o = Returned None /\ res = None /\
          ~ In None (Some full_url :: omap (target env url) rest)) \/
         (o = Raised ValueError /\ res = None /\
          In None (Some full_url :: omap (target env url) rest)))).
    { intros w1 Hstep. destruct (IH w1) as (o & res & w' & Hrun & Hfv & Hcase).
      exists o, res, w'. split; [exact Hrun|]. split; [now apply Hstep|].
      destruct Hcase as [Hc|[(Ho & Hr & Hn)|(Ho & Hr & Hn)]]; [now left| |].
      - right. left. split; [exact Ho|]. split; [exact Hr|].
        intros [Hin|Hin]; [discriminate | now apply Hn].
      - right. right. split; [exact Ho|]. split; [exact Hr|]. now right. }
    destruct (probe env full_url w) as [[[]|e] w1] eqn:Hp.
    + exists (Returned (Some full_url)), (Some full_url), w1. split; [reflexivity|].
      split; [now apply fv_hit|]. left. now exists full_url.
    + apply Hnext. intros res w' Hfv. eapply fv_miss; eauto.
    + simpl. apply Hnext. intros res w' Hfv. eapply fv_fail; eauto.
Qed.

(** The loop over the patterns: the value returned, or the [ValueError] of
    a join, after the probes of the candidates in order. *)
Lemma scan_patterns_first_verified url patterns soup w :
  exists o res w',
    scan_patterns env url patterns soup w = (o, w') /\
    first_verified env
      (before_failure
         (flat_map (fun pattern => omap (target env url) (pattern soup)) patterns))
      w res w' /\
    (o = Returned res \/ (o = Raised ValueError /\ res = None)).
Proof.
  revert w. induction patterns as [|pattern rest IH]; intros w.
  - exists (Returned None), None, w. split; [reflexivity|]. split; [constructor|].
    now left.
  - simpl.
    set (l1 := omap (target env url) (pattern soup)).
    set (L := flat_map (fun pattern0 => omap (target env url) (pattern0 soup)) rest).
    assert (Hgen : exists o res w',
      (found <- scan_links env url (pattern soup) ;;
       match found with
       | Some full_url => ret (Some full_url)
       | None => scan_patterns env url rest soup
       end) w = (o, w') /\
      first_verified env (before_failure (l1 ++ L)) w res w' /\
      (o = Returned res \/ (o = Raised ValueError /\ res = None))).
    { destruct (scan_links_first_verified url (pattern soup) w)
        as (o1 & res1 & w1 & Hrun & Hfv & Hcase).
      fold l1 in Hfv, Hcase. unfold bind. rewrite Hrun.
      destruct Hcase as [(u & -> & ->)|[(-> & -> & Hn)|(-> & -> & Hn)]].
      - exists (Returned (Some u)), (Some u), w1. split; [reflexivity|].
        split; [|now left].
        destruct (before_failure_app l1 L) as [t ->].
        now apply first_verified_app_some.
      - destruct (IH w1) as (o & res & w' & Hrun' & Hfv' & Hcase').
        exists o, res, w'. split; [exact Hrun'|]. split; [|exact Hcase'].
        rewrite (before_failure_all l1 L Hn).
        eapply first_verified_app_none; eauto.
      - exists (Raised ValueError), None, w1. split; [reflexivity|].
        split; [|now right].
        now rewrite (before_failure_cut l1 L Hn). }
    subst l1. destruct (pattern soup) as [|a l] eqn:E; [|exact Hgen].
    simpl. apply IH.
Qed.

(** Once the page is read, [get_pdf_url] returns what the probes of the
    candidates give, also when a join raised. *)
Lemma get_pdf_url_scan url w page w1 :
  request env session GET url false w = (Returned page, w1) ->
  http_error page = false ->
  exists res w',
    get_pdf_url env url w = (Returned res, w') /\
    first_verified env (candidates env url (html_anchors env (text page))) w1 res w'.
Proof.
  intros Hpage Hok.
  destruct (scan_patterns_first_verified url pdf_patterns
              (html_anchors env (text page)) w1)
    as (o & res & w' & Hrun & Hfv & Hcase).
  exists res, w'. split; [|exact Hfv].
  unfold get_pdf_url.
  destruct Hcase as [->|[-> ->]].
  - apply try_returned.
    erewrite bind_returned by exact Hpage.
    erewrite bind_returned by (apply raise_for_status_ok; exact Hok).
    exact Hrun.
  - erewrite try_raised; [reflexivity|].
    erewrite bind_returned by exact Hpage.
    erewrite bind_returned by (apply raise_for_status_ok; exact Hok).
    exact Hrun.
Qed.

(** A join that raises ends the resolution: with no candidate before it
    that verifies, the result is [None]. *)
Lemma first_verified_none_verifies l w res w' :
  first_verified env l w res w' ->
  (forall u w0 w1, u ∈ l -> probe env u w0 <> (Returned true, w1)) ->
  res = None.
Proof.
  induction 1 as [w|u rest w w0 Hp|u rest w w0 r w2 Hp H IH|u rest w e w0 r w2 Hp H IH];
    intros Hno.
  - reflexivity.
  - exfalso. eapply Hno; [|exact Hp]. apply elem_of_cons. now left.
  - apply IH. intros x wa wb Hin. apply Hno. apply elem_of_cons. now right.
  - apply IH. intros x wa wb Hin. apply Hno. apply elem_of_cons. now right.
Qed.

Lemma first_verified_prefix_wins l1 l2 w res w' :
  first_verified env (l1 ++ l2) w res w' ->
  (exists u, u ∈ l1 /\ always_verifies env u) ->
  exists u', res = Some u' /\ u' ∈ l1.
Proof.
  revert w. induction l1 as [|x l1 IH]; intros w Hfv (u & Hin & Hu).
  - inversion Hin.
  - simpl in Hfv.
    assert (Hrest : forall o w1, probe env x w = (o, w1) -> o <> Returned true ->
                    u ∈ l1).
    { intros o w1 Hp Hne. apply elem_of_cons in Hin as [->|Hin]; [|exact Hin].
      destruct (Hu w) as [w0 H0]. congruence. }
    inversion Hfv as [|? ? ? ? Hp|? ? ? w1 ? ? Hp Hnext|? ? ? e w1 ? ? Hp Hnext]; subst.
    + exists x. split; [reflexivity | apply elem_of_cons; now left].
    + destruct (IH w1 Hnext) as (u' & -> & Hin').
      { exists u. split; [|exact Hu]. eapply Hrest; [exact Hp | discriminate]. }
      exists u'. split; [reflexivity | apply elem_of_cons; now right].
    + destruct (IH w1 Hnext) as (u' & -> & Hin').
      { exists u. split; [|exact Hu]. eapply Hrest; [exact Hp | discriminate]. }
      exists u'. split; [reflexivity | apply elem_of_cons; now right].
Qed.

(** C2, as the code has it.  Once the page is read, [get_pdf_url] joins
    and probes the targets of the matches of the four patterns, pattern
    after pattern and in document order inside a pattern, and returns the
    first target whose probe reports a content type with pdf in it, in the
    world that probe left; a pattern none of whose matches verifies gives
    way to the next one.  A join that raises ends the resolution: the
    candidates are the targets joined before it, and the result is [None]
    when none of them verified.  When a match of the first pattern that is
    joined before any join of that pattern raises always verifies, the
    result is such a match of the first pattern. *)
Theorem get_pdf_url_first_verified_candidate
    (url : string) (w w1 : World) (page : Response) :
  request env session GET url false w = (Returned page, w1) ->
  http_error page = false ->
  let soup := html_anchors env (text page) in
  exists res w',
    get_pdf_url env url w = (Returned res, w') /\
    first_verified env (candidates env url soup) w1 res w' /\
    ((exists u, u ∈ pattern_candidates env url (by_href "pdf") soup /\
                always_verifies env u) ->
     exists u', res = Some u' /\ u' ∈ pattern_candidates env url (by_href "pdf") soup) /\
    (In None (joins env url soup) ->
     (forall u w0 w2, u ∈ candidates env url soup ->
                      probe env u w0 <> (Returned true, w2)) ->
     res = None).
Proof.
  intros Hpage Hok soup.
  destruct (get_pdf_url_scan url w page w1 Hpage Hok) as (res & w' & Hrun & Hfv).
  fold soup in Hfv.
  exists res, w'. split; [exact Hrun|]. split; [exact Hfv|]. split.
  - intros Hex.
    unfold candidates, joins, pdf_patterns in Hfv. cbn [flat_map] in Hfv.
    destruct (before_failure_app (omap (target env url) (by_href "pdf" soup))
                (omap (target env url) (by_href "download" soup) ++
                 omap (target env url) (by_href "report" soup) ++
                 omap (target env url) (by_string ["report"; "download"; "pdf"] soup) ++ []))
      as [t Ht].
    rewrite Ht in Hfv.
    eapply first_verified_prefix_wins; [exact Hfv | exact Hex].
  - intros _ Hno. eapply first_verified_none_verifies; eauto.
Qed.

(** *** Failures stay inside *)

Lemma get_pdf_url_returns url w :
  exists res w', get_pdf_url env url w = (Returned res, w').
Proof. apply try_except_total. Qed.

Lemma download_pdf_returns url out w :
  exists res w', download_pdf env url out w = (Returned res, w').
Proof. apply try_except_total. Qed.

Lemma get_pdf_url_page_raises url w e w1 :
  request env session GET url false w = (Raised e, w1) ->
  get_pdf_url env url w = (Returned None, w1).
Proof.
  intros H. unfold get_pdf_url. erewrite try_raised; [reflexivity|].
  apply bind_raised. exact H.
Qed.

Lemma get_pdf_url_page_rejected url w r w1 :
  request env session GET url false w = (Returned r, w1) ->
  http_error r = true ->
  get_pdf_url env url w = (Returned None, w1).
Proof.
  intros H He. unfold get_pdf_url. erewrite try_raised; [reflexivity|].
  erewrite bind_returned by exact H.
  apply bind_raised. apply raise_for_status_error. exact He.
Qed.

Lemma scan_links_probe_raises url link href full_url rest w e w1 :
  a_href link = Some href ->
  Py.truthy href = true ->
  urljoin env url href = Some full_url ->
  probe env full_url w = (Raised e, w1) ->
  scan_links env url (link :: rest) w = scan_links env url rest w1.
Proof.
  intros Hh Ht Hj Hp. simpl. rewrite Hh, Ht, Hj.
  unfold bind, try_except. rewrite Hp. reflexivity.
Qed.

(** C5, as the code has it.  [get_pdf_url] and [download_pdf] return on
    every input.  A page fetch, a HEAD request or a streaming download that
    raises, or whose status is from 400 to 599, gives [None]; a probe that
    raises leaves its candidate aside and the scan goes on with the next
    link. *)
Theorem failures_give_none :
  (forall url w, exists res w', get_pdf_url env url w = (Returned res, w')) /\
  (forall url out w, exists res w', download_pdf env url out w = (Returned res, w')) /\
  (forall url w e w1,
     request env session GET url false w = (Raised e, w1) ->
     get_pdf_url env url w = (Returned None, w1)) /\
  (forall url w r w1,
     request env session GET url false w = (Returned r, w1) ->
     400 <= status_code r < 600 ->
     get_pdf_url env url w = (Returned None, w1)) /\
  (forall url out w e w1,
     request env session HEAD url false w = (Raised e, w1) ->
     download_pdf env url out w = (Returned None, w1)) /\
  (forall url out w r w1,
     request env session HEAD url false w = (Returned r, w1) ->
     400 <= status_code r < 600 ->
     download_pdf env url out w = (Returned None, w1)) /\
  (forall url out w r w1 e w2,
     request env session HEAD url false w = (Returned r, w1) ->
     http_error r = false ->
     already_complete env (joinpath out (get_pdf_filename url r)) r w1
       = (Returned false, w1) ->
     request env session GET url true w1 = (Raised e, w2) ->
     download_pdf env url out w = (Returned None, w2)) /\
  (forall url out w r w1 g w2,
     request env session HEAD url false w = (Returned r, w1) ->
     http_error r = false ->
     already_complete env (joinpath out (get_pdf_filename url r)) r w1
       = (Returned false, w1) ->
     request env session GET url true w1 = (Returned g, w2) ->
     400 <= status_code g < 600 ->
     download_pdf env url out w = (Returned None, w2)) /\
  (forall url link href full_url rest w e w1,
     a_href link = Some href ->
     Py.truthy href = true ->
     urljoin env url href = Some full_url ->
     probe env full_url w = (Raised e, w1) ->
     scan_links env url (link :: rest) w = scan_links env url rest w1).
Proof.
  assert (Herr : forall r, 400 <= status_code r < 600 -> http_error r = true).
  { intros r [H1 H2]. unfold http_error.
    apply andb_true_intro. split; [now apply Z.leb_le | now apply Z.ltb_lt]. }
  repeat split.
  - apply get_pdf_url_returns.
  - apply download_pdf_returns.
  - apply get_pdf_url_page_raises.
  - intros url w r w1 H Hs. eapply get_pdf_url_page_rejected; eauto.
  - apply download_pdf_head_raises.
  - intros url out w r w1 H Hs. eapply download_pdf_head_rejected; eauto.
  - intros url out w r w1 e w2 Hh Hok Hskip Hg.
    rewrite (download_pdf_transfers url out w r w1 Hh Hok Hskip).
    erewrite try_raised; [reflexivity|]. apply transfer_get_raises. exact Hg.
  - intros url out w r w1 g w2 Hh Hok Hskip Hg Hs.
    rewrite (download_pdf_transfers url out w r w1 Hh Hok Hskip).
    erewrite try_raised; [reflexivity|].
    apply transfer_get_rejected; [exact Hg | now apply Herr].
  - apply scan_links_probe_raises.
Qed.

(** *** The batch *)

Lemma process_loop_batch links files w :
  exists outs w',
    process_loop env (Path_of "pdfs") links files w
      = (Returned (files ++ omap id outs), w') /\
    batch_run env links w outs w'.
Proof.
  revert files w. induction links as [|link rest IH]; intros files w.
  - exists [], w. simpl. rewrite app_nil_r. split; [reflexivity | constructor].
  - simpl. destruct (get_pdf_url_returns link w) as (res & w1 & Hres).
    erewrite bind_returned by exact Hres.
    assert (Hskip : resolved res = None ->
      exists outs w',
        process_loop env (Path_of "pdfs") rest files w1
          = (Returned (files ++ omap id outs), w') /\
        batch_run env (link :: rest) w outs w').
    { intros Hr. destruct (IH files w1) as (outs & w' & Hrun & Hb).
      exists (None :: outs), w'. split; [exact Hrun|].
      econstructor; [|exact Hb]. eapply run_unresolved; eauto. }
    destruct res as [u|]; [|now apply Hskip].
    destruct (Py.truthy u) eqn:Hu; [|apply Hskip; simpl; now rewrite Hu].
    unfold sleep. erewrite bind_returned by reflexivity.
    destruct (download_pdf_returns u (Path_of "pdfs") (slept 1000 w1))
      as (file & w2 & Hdl).
    change {| fs := fs w1; trace := trace w1 ++ [Sleep 1000] |} with (slept 1000 w1).
    erewrite bind_returned by exact Hdl.
    assert (Hrun1 : link_run env link w file w2).
    { eapply run_resolved; [exact Hres | simpl; now rewrite Hu | exact Hdl]. }
    destruct file as [p|].
    + destruct (IH (files ++ [p]) w2) as (outs & w' & Hrun & Hb).
      exists (Some p :: outs), w'. split.
      * rewrite Hrun. simpl. now rewrite <- app_assoc.
      * econstructor; eauto.
    + destruct (IH files w2) as (outs & w' & Hrun & Hb).
      exists (None :: outs), w'. split; [exact Hrun|].
      econstructor; eauto.
Qed.

Lemma batch_run_length links w outs w' :
  batch_run env links w outs w' -> length outs = length links.
Proof. induction 1; simpl; congruence. Qed.

(** C3.  When the output directory is there or can be made,
    [process_article_links] returns, and its result lists, in the order of
    the links, the file of every link that resolved and whose download
    returned one: there is one outcome per link, each reached in the world
    the links before it left, and the links without a file leave no entry. *)
Theorem process_article_links_collects_successes
    (links : list string) (w w0 : World) :
  mkdir_exist_ok (Path_of "pdfs") w = (Returned tt, w0) ->
  exists outs w',
    process_article_links env links w = (Returned (omap id outs), w') /\
    batch_run env links w0 outs w' /\
    length outs = length links.
Proof.
  intros Hmk. destruct (process_loop_batch links [] w0) as (outs & w' & Hrun & Hb).
  exists outs, w'. split; [|split].
  - unfold process_article_links. erewrite bind_returned by exact Hmk. exact Hrun.
  - exact Hb.
  - eapply batch_run_length; eauto.
Qed.

(** *** Discovery *)

Lemma reached_cons_skip terms url link rest :
  join_raises env terms url link = false ->
  reached env terms url (link :: rest) = link :: reached env terms url rest.
Proof. intros H. simpl. now rewrite H. Qed.

Lemma collect_links_spec base url terms links (acc : gset string) x :
  x ∈ (collect_links env base url terms links acc).2 <->
  x ∈ acc \/
  exists link, link ∈ reached env terms url links /\ kept env base terms url link = Some x.
Proof.
  revert acc. induction links as [|link rest IH]; intros acc.
  - simpl. split; [now left|]. intros [H|(link & Hin & _)]; [exact H | inversion Hin].
  - assert (Hdrop : join_raises env terms url link = false ->
      kept env base terms url link = None ->
      (x ∈ (collect_links env base url terms rest acc).2 <->
       x ∈ acc \/ exists l, l ∈ reached env terms url (link :: rest) /\
                            kept env base terms url l = Some x)).
    { intros Hj Hk. rewrite (reached_cons_skip _ _ _ _ Hj), IH. split.
      - intros [H|(l & Hin & Hl)]; [now left|].
        right. exists l. split; [apply elem_of_cons; now right | exact Hl].
      - intros [H|(l & Hin & Hl)]; [now left|].
        apply elem_of_cons in Hin as [->|Hin]; [congruence|].
        right. now exists l. }
    cbn [collect_links]. unfold kept, join_raises in Hdrop.
    destruct (a_href link) as [href|] eqn:Eh; [|now apply Hdrop].
    destruct (Py.truthy href && relevant terms link href) eqn:Er;
      [|now apply Hdrop].
    destruct (urljoin env url href) as [full_url|] eqn:Ej.
    2:{ simpl. unfold join_raises. rewrite Eh, Er, Ej. simpl.
        split; [now left|]. intros [H|(l & Hin & _)]; [exact H | inversion Hin]. }
    destruct (Py.contains base full_url) eqn:Eb; [|now apply Hdrop].
    assert (Hj : join_raises env terms url link = false).
    { unfold join_raises. now rewrite Eh, Er, Ej. }
    assert (Hk : kept env base terms url link = Some full_url).
    { unfold kept. now rewrite Eh, Er, Ej, Eb. }
    rewrite (reached_cons_skip _ _ _ _ Hj), IH. split.
    + intros [H|(l & Hin & Hl)].
      * apply elem_of_union in H as [H|H]; [|now left].
        apply elem_of_singleton in H as ->.
        right. exists link. split; [apply elem_of_cons; now left | exact Hk].
      * right. exists l. split; [apply elem_of_cons; now right | exact Hl].
    + intros [H|(l & Hin & Hl)].
      * left. apply elem_of_union. now right.
      * apply elem_of_cons in Hin as [->|Hin].
        -- left. apply elem_of_union. left. apply elem_of_singleton. congruence.
        -- right. now exists l.
Qed.

Lemma discover_loop_spec base terms seeds (acc : gset string) w :
  exists pages w' (found : gset string),
    discover_loop env base terms seeds acc w = (Returned found, w') /\
    pages_fetched env seeds w pages w' /\
    forall x, x ∈ found <->
      x ∈ acc \/
      exists url soup link,
        (url, soup) ∈ pages /\ link ∈ reached env terms url soup /\
        kept env base terms url link = Some x.
Proof.
  revert acc w. induction seeds as [|url rest IH]; intros acc w.
  - exists [], w, acc. split; [reflexivity|]. split; [constructor|].
    intros x. split; [now left|].
    intros [H|(u & soup & l & Hin & _)]; [exact H | inversion Hin].
  - simpl.
    assert (Hskip : forall w1,
      (forall pages w', pages_fetched env rest w1 pages w' ->
                        pages_fetched env (url :: rest) w pages w') ->
      exists pages w' (found : gset string),
        discover_loop env base terms rest acc w1 = (Returned found, w') /\
        pages_fetched env (url :: rest) w pages w' /\
        forall x, x ∈ found <->
          x ∈ acc \/
          exists url0 soup link,
            (url0, soup) ∈ pages /\ link ∈ reached env terms url0 soup /\
            kept env base terms url0 link = Some x).
    { intros w1 Hstep. destruct (IH acc w1) as (pages & w' & found & Hrun & Hp & Hx).
      exists pages, w', found. split; [exact Hrun|]. split; [now apply Hstep | exact Hx]. }
    destruct (request env requests_default GET url false w) as [[r|e] w1] eqn:Hreq.
    + destruct (http_error r) eqn:He.
      * erewrite bind_returned.
        2:{ erewrite try_raised; [reflexivity|].
            erewrite bind_returned by exact Hreq.
            apply bind_raised. apply raise_for_status_error. exact He. }
        apply Hskip. intros pages w' Hp. eapply pf_rejected; eauto.
      * set (soup := html_anchors env (text r)).
        erewrite bind_returned with
          (a := (collect_links env base url terms soup acc).2) (w1 := w1).
        2:{ apply try_returned.
            erewrite bind_returned by exact Hreq.
            erewrite bind_returned by (apply raise_for_status_ok; exact He).
            fold soup.
            destruct (collect_links env base url terms soup acc) as [[[]|e] found];
              reflexivity. }
        destruct (IH (collect_links env base url terms soup acc).2 w1)
          as (pages & w' & found & Hrun & Hp & Hx).
        exists ((url, soup) :: pages), w', found.
        split; [exact Hrun|]. split; [eapply pf_read; eauto|].
        intros x. rewrite Hx, collect_links_spec. split.
        -- intros [[H|(l & Hin & Hl)]|(u & sp & l & Hin & Hl & Hk)].
           ++ now left.
           ++ right. exists url, soup, l.
              split; [apply elem_of_cons; now left | now split].
           ++ right. exists u, sp, l.
              split; [apply elem_of_cons; now right | now split].
        -- intros [H|(u & sp & l & Hin & Hl & Hk)]; [left; now left|].
           apply elem_of_cons in Hin as [Heq|Hin].
           ++ injection Heq as -> ->. left. right. now exists l.
           ++ right. now exists u, sp, l.
    + erewrite bind_returned.
      2:{ erewrite try_raised; [reflexivity|]. apply bind_raised. exact Hreq. }
      apply Hskip. intros pages w' Hp. eapply pf_failed; eauto.
Qed.

Lemma reached_prefix terms url links :
  exists rest, links = reached env terms url links ++ rest.
Proof.
  induction links as [|link links [rest IH]]; simpl; [now exists []|].
  destruct (join_raises env terms url link); [now exists (link :: links)|].
  exists rest. simpl. now rewrite <- IH.
Qed.

Lemma reached_all terms url links :
  (forall link, link ∈ links -> join_raises env terms url link = false) ->
  reached env terms url links = links.
Proof.
  induction links as [|link links IH]; intros H; simpl; [reflexivity|].
  rewrite (H link) by (apply elem_of_cons; now left).
  rewrite IH; [reflexivity|]. intros l Hl. apply H. apply elem_of_cons. now right.
Qed.

(** C8, as the code has it.  [discover] returns the seeds together with,
    for every seed page that could be read, the addresses kept for the
    anchors the loop gets to: an anchor is kept when its [href] is not
    empty, a keyword occurs in the lower-cased [href] as written in the
    page or in the lower-cased text, and the joined address contains the
    domain.  The loop over a page gets to the anchors that come before the
    first one whose join raises, which are all of them when no join
    raises.  The result contains every seed and lists no address twice. *)
Theorem discover_result
    (base_url : string) (terms seeds : list string) (w : World) :
  exists pages w' (found : gset string),
    discover env base_url terms seeds w = (Returned found, w') /\
    pages_fetched env seeds w pages w' /\
    (forall x, x ∈ found <->
       x ∈ seeds \/
       exists url soup link,
         (url, soup) ∈ pages /\ link ∈ reached env terms url soup /\
         kept env base_url terms url link = Some x) /\
    (forall url soup, (url, soup) ∈ pages ->
       (exists rest, soup = reached env terms url soup ++ rest) /\
       ((forall link, link ∈ soup -> join_raises env terms url link = false) ->
        reached env terms url soup = soup)) /\
    (forall x, x ∈ seeds -> x ∈ found) /\
    NoDup (elements found).
Proof.
  destruct (discover_loop_spec base_url terms seeds ∅ w)
    as (pages & w' & found & Hrun & Hp & Hx).
  exists pages, w', (found ∪ list_to_set seeds).
  split; [|split; [exact Hp|split; [|split; [|split]]]].
  - unfold discover. erewrite bind_returned by exact Hrun. reflexivity.
  - intros x. rewrite elem_of_union, Hx, elem_of_list_to_set. split.
    + intros [[H|H]|H]; [set_solver | now right | now left].
    + intros [H|H]; [now right | left; now right].
  - intros url soup _. split; [apply reached_prefix | apply reached_all].
  - intros x Hin. apply elem_of_union. right. now apply elem_of_list_to_set.
  - apply NoDup_elements.
Qed.

(** *** Where the files go *)

Lemma transfer_result url p w o w' :
  transfer env url p w = (Returned o, w') -> o = Some p.
Proof.
  unfold transfer, bind.
  destruct (request env session GET url true w) as [[g|e] w1]; [|discriminate].
  destruct (raise_for_status g w1) as [[[]|e] w2]; [|discriminate].
  destruct (header_int "content-length" g w2) as [[n|e] w3]; [|discriminate].
  destruct (open_wb p w3) as [[[]|e] w4]; [|discriminate].
  destruct (write_body p url (body_chunks g) w4) as [[[]|e] w5]; [|discriminate].
  destruct (body_broken g); [discriminate|].
  unfold ret. intros [= <- _]. reflexivity.
Qed.

(** A path that [download_pdf] returns is the directory joined with the
    name derived from some HEAD response. *)
Lemma download_pdf_target url out w p w' :
  download_pdf env url out w = (Returned (Some p), w') ->
  exists r, p = joinpath out (get_pdf_filename url r).
Proof.
  unfold download_pdf, try_except, bind.
  destruct (request env session HEAD url false w) as [[r|e] w1]; [|discriminate].
  destruct (raise_for_status r w1) as [[[]|e] w2]; [|discriminate].
  destruct (already_complete env _ r w2) as [[[]|e] w3]; [| |discriminate].
  - intros [= <- _]. now exists r.
  - destruct (transfer env url _ w3) as [[o|e] w4] eqn:Ht; [|discriminate].
    apply transfer_result in Ht as ->. intros [= <- _]. now exists r.
Qed.

Lemma batch_run_targets links w outs w' p :
  batch_run env links w outs w' ->
  Some p ∈ outs ->
  exists u r, p = joinpath (Path_of "pdfs") (get_pdf_filename u r).
Proof.
  induction 1 as [|link rest w file w1 files w' Hlink Hrest IH]; intros Hin.
  - inversion Hin.
  - apply elem_of_cons in Hin as [<-|Hin]; [|now apply IH].
    inversion Hlink as [|? ? ? u ? ? ? _ _ Hdl]; subst.
    destruct (download_pdf_target _ _ _ _ _ Hdl) as [r ->]. now exists u, r.
Qed.

(** The directory of the batch is fixed: every path that
    [process_article_links] returns is [pdfs] joined with a derived name,
    and lies directly in [pdfs] when the name comes from the URL. *)
Lemma process_article_links_targets links w paths w' p :
  process_article_links env links w = (Returned paths, w') ->
  p ∈ paths ->
  exists u r,
    p = joinpath (Path_of "pdfs") (get_pdf_filename u r) /\
    (names_file r = false -> parent p = Path_of "pdfs").
Proof.
  unfold process_article_links. unfold bind at 1.
  destruct (mkdir_exist_ok (Path_of "pdfs") w) as [[[]|e] w0]; [|discriminate].
  destruct (process_loop_batch links [] w0) as (outs & w2 & Hrun & Hb).
  rewrite Hrun. intros [= <- _] Hin. simpl in Hin.
  apply list_elem_of_omap in Hin as (o & Ho & Heq). simpl in Heq. subst o.
  destruct (batch_run_targets _ _ _ _ _ Hb Ho) as (u & r & ->).
  exists u, r. split; [reflexivity|]. apply url_named_file_in_pdfs.
Qed.

End Properties.

(** ** The statements on the scenarios *)

Ltac by_evaluation := vm_compute; reflexivity.


Lemma download_pdf_skips_empty_file_without_length_witness :
  headers_get "content-length" (headers plain_head) = None /\
  fs world_empty_file !! "pdfs/r.pdf" = Some (File []) /\
  download_pdf env_report_no_length report_url (Path_of "pdfs") world_empty_file
    = (Returned (Some (joinpath (Path_of "pdfs") "r.pdf")),
       after_request env_report_no_length HEAD report_url false world_empty_file) /\
  trace (after_request env_report_no_length HEAD report_url false world_empty_file)
    = [Wire session HEAD report_url].
Proof.
  split; [by_evaluation|]. split; [by_evaluation|].
  destruct (download_pdf_skips_empty_file_without_length env_report_no_length
              report_url (Path_of "pdfs") world_empty_file
              (after_request env_report_no_length HEAD report_url false world_empty_file)
              plain_head)
    as (Hrun & _ & _); try by_evaluation.
  split; [exact Hrun | by_evaluation].
Defined.


(** C2, the statement of the specification refuted, twice.  On the page
    with two links, the match of the first pattern does not verify; the
    code goes on to the match of the second pattern and returns it, where
    candidates taken from the first pattern alone give nothing.  On the
    page whose link shows the word pdf in a nested tag, the anchor has a
    visible text with pdf in it and no single string: the fourth pattern of
    the code does not match it and nothing is returned, where a match on
    the visible text returns the link, which is a PDF. *)
Lemma get_pdf_url_beyond_first_pattern :
  ((get_pdf_url env_two_links "https://x.org/p" world_bare).1
     = Returned (Some "https://x.org/download/b") /\
   (spec_get_pdf_url env_two_links "https://x.org/p" world_bare).1 = Returned None) /\
  (Py.contains "pdf" (Py.lower (a_text nested_text_anchor)) = true /\
   a_string nested_text_anchor = None /\
   (get_pdf_url env_nested_text "https://x.org/p" world_bare).1 = Returned None /\
   (spec_get_pdf_url env_nested_text "https://x.org/p" world_bare).1
     = Returned (Some "https://x.org/get/7")).
Proof. repeat split; by_evaluation. Qed.

Lemma get_pdf_url_first_verified_candidate_witness :
  request env_both_verify session GET "https://x.org/p" false world_bare
    = (Returned both_verify_page,
       after_request env_both_verify GET "https://x.org/p" false world_bare) /\
  always_verifies env_both_verify "https://x.org/a.pdf" /\
  exists res w',
    get_pdf_url env_both_verify "https://x.org/p" world_bare = (Returned res, w') /\
    first_verified env_both_verify
      (candidates env_both_verify "https://x.org/p" both_verify_anchors)
      (after_request env_both_verify GET "https://x.org/p" false world_bare) res w' /\
    exists u',
      res = Some u' /\
      u' ∈ pattern_candidates env_both_verify "https://x.org/p" (by_href "pdf")
             both_verify_anchors.
Proof.
  assert (Hpage : request env_both_verify session GET "https://x.org/p" false world_bare
                  = (Returned both_verify_page,
                     after_request env_both_verify GET "https://x.org/p" false world_bare))
    by by_evaluation.
  assert (Halways : always_verifies env_both_verify "https://x.org/a.pdf").
  { intros w. eexists. reflexivity. }
  split; [exact Hpage|]. split; [exact Halways|].
  destruct (get_pdf_url_first_verified_candidate env_both_verify "https://x.org/p"
              world_bare
              (after_request env_both_verify GET "https://x.org/p" false world_bare)
              both_verify_page Hpage)
    as (res & w' & Hrun & Hfv & Hfirst & _); [by_evaluation|].
  exists res, w'. split; [exact Hrun|]. split; [exact Hfv|].
  apply Hfirst. exists "https://x.org/a.pdf". split; [|exact Halways].
  apply elem_of_cons. now left.
Defined.

(** A join that raises: the first link of the page cannot be joined, and
    the resolution ends with nothing although the second link is a PDF; no
    probe is sent. *)
Example get_pdf_url_stops_at_a_bad_href :
  joins env_bad_href "https://x.org/p" bad_href_anchors
    = [None; Some "https://x.org/b.pdf"] /\
  candidates env_bad_href "https://x.org/p" bad_href_anchors = [] /\
  (probe env_bad_href "https://x.org/b.pdf" world_bare).1 = Returned true /\
  get_pdf_url env_bad_href "https://x.org/p" world_bare
    = (Returned None, after_request env_bad_href GET "https://x.org/p" false world_bare).
Proof. repeat split; by_evaluation. Qed.

(** The priority of the specification: the link with download in its
    address comes first in the page, both links are PDFs, and the link with
    pdf in its address is returned. *)
Example get_pdf_url_prefers_pdf_in_href :
  (get_pdf_url env_both_verify "https://x.org/p" world_bare).1
    = Returned (Some "https://x.org/a.pdf").
Proof. by_evaluation. Qed.

Lemma process_article_links_collects_successes_witness :
  mkdir_exist_ok (Path_of "pdfs") world_bare = (Returned tt, world_fresh) /\
  exists outs w',
    process_article_links env_batch batch_links world_bare
      = (Returned (omap id outs), w') /\
    batch_run env_batch batch_links world_fresh outs w' /\
    length outs = length batch_links.
Proof.
  split; [by_evaluation|].
  apply (process_article_links_collects_successes env_batch batch_links
           world_bare world_fresh).
  by_evaluation.
Defined.

(** The batch of the specification: the second of three links cannot be
    reached, and the files of the first and the third are returned. *)
Example process_article_links_batch_of_three :
  (process_article_links env_batch batch_links world_bare).1
    = Returned [Path_of "pdfs/f1.pdf"; Path_of "pdfs/f3.pdf"].
Proof. by_evaluation. Qed.

(** C5, the statement of the specification refuted: a page answered with
    status 300 is read like any other, and its link is returned. *)
Lemma get_pdf_url_status_300 :
  ~ spec_non_2xx_page_gives_none env_status_300 "https://x.org/p" world_bare.
Proof.
  intros H.
  specialize (H (response_of 300 [] [two_links_html] false)
                (after_request env_status_300 GET "https://x.org/p" false world_bare)).
  assert (Hres : (get_pdf_url env_status_300 "https://x.org/p" world_bare).1
                 = Returned (Some "https://x.org/a.pdf")) by by_evaluation.
  rewrite Hres in H. 
  assert (Returned (Some "https://x.org/a.pdf") = Returned (@None string)) as Habs.
  { apply H; [by_evaluation|]. unfold non_2xx. simpl. lia. }
  discriminate Habs.
Qed.

Lemma failures_give_none_witness :
  get_pdf_url env_failures "https://x.org/gone" world_bare
    = (Returned None, after_request env_failures GET "https://x.org/gone" false world_bare) /\
  download_pdf env_failures "https://x.org/none.pdf" (Path_of "pdfs") world_bare
    = (Returned None, after_request env_failures HEAD "https://x.org/none.pdf" false world_bare).
Proof.
  destruct (failures_give_none env_failures)
    as (_ & _ & _ & Hpage & Hhead & _).
  split.
  - apply (Hpage "https://x.org/gone" world_bare
             (response_of 404 [] ["not found"] false)); [by_evaluation|].
    simpl. lia.
  - apply (Hhead "https://x.org/none.pdf" (Path_of "pdfs") world_bare ConnectionError).
    by_evaluation.
Defined.

(** C8, the statement of the specification refuted: the link to the second
    page of the seed has no keyword in its [href] nor in its text, and the
    code leaves it out, although the joined address contains a keyword and
    the domain. *)
Lemma discover_reads_href_as_written :
  ~ spec_discover_result env_seed "https://www.mhrc.ca" main_terms [seed_url] world_bare.
Proof.
  intros H.
  specialize (H [(seed_url, seed_anchors)]
                (discover env_seed "https://www.mhrc.ca" main_terms [seed_url] world_bare).2
                ({[ "https://www.mhrc.ca/about"; seed_url ]})).
  assert (Hrun : discover env_seed "https://www.mhrc.ca" main_terms [seed_url] world_bare
                 = (Returned ({[ "https://www.mhrc.ca/about"; seed_url ]} : gset string),
                    (discover env_seed "https://www.mhrc.ca" main_terms [seed_url] world_bare).2))
    by by_evaluation.
  specialize (H Hrun).
  assert (Hpages : pages_fetched env_seed [seed_url] world_bare
                     [(seed_url, seed_anchors)]
                     (discover env_seed "https://www.mhrc.ca" main_terms [seed_url] world_bare).2).
  { change seed_anchors with (html_anchors env_seed (text seed_page)).
    eapply pf_read; [by_evaluation | by_evaluation |].
    replace (discover env_seed "https://www.mhrc.ca" main_terms [seed_url] world_bare).2
      with (request env_seed requests_default GET seed_url false world_bare).2
      by by_evaluation.
    constructor. }
  specialize (H Hpages "https://www.mhrc.ca/research-briefs?page=2").
  destruct H as [_ H].
  assert (Hin : "https://www.mhrc.ca/research-briefs?page=2"
                ∈ ({[ "https://www.mhrc.ca/about"; seed_url ]} : gset string)).
  { apply H. right. exists seed_url, seed_anchors, (link_to "?page=2" "Next").
    split; [apply elem_of_cons; now left|].
    split; [apply elem_of_cons; now left | by_evaluation]. }
  apply elem_of_union in Hin as [Hin|Hin]; apply elem_of_singleton in Hin;
    discriminate Hin.
Qed.

(** A join that raises on a seed page: the report before it is kept, the
    report after it is lost. *)
Example discover_stops_at_a_bad_href :
  reached env_reports main_terms seed_url reports_anchors
    = [link_to "https://www.mhrc.ca/report-1" "One"] /\
  (discover env_reports "https://www.mhrc.ca" main_terms [seed_url] world_bare).1
    = Returned ({[ "https://www.mhrc.ca/report-1"; seed_url ]} : gset string).
Proof. split; by_evaluation. Qed.

(** C4, on the code.  For a URL whose query has no slash the code derives
    the name the specification describes: the [filename=] value of
    Content-Disposition, else the last path segment of the URL, without the
    query, with [.pdf] added unless it is there in any case.  But the URL is
    cut at its last slash before the query is taken off, so a slash inside
    the query moves the name into the query: the code derives [b.pdf] where
    the last path segment of the URL is [file.php]. *)
Theorem get_pdf_filename_slash_in_query :
  (forall a q r,
     Py.mem_char "?" a = false ->
     Py.mem_char "/" q = false ->
     q = EmptyString \/ Py.startswith "?" q = true ->
     get_pdf_filename (a +:+ q) r = spec_filename (a +:+ q) r) /\
  get_pdf_filename "https://x.org/file.php?next=a/b" (response_of 200 [] [] false)
    = "b.pdf" /\
  spec_filename "https://x.org/file.php?next=a/b" (response_of 200 [] [] false)
    = "file.php.pdf".
Proof.
  split; [exact get_pdf_filename_meets_spec|].
  split; reflexivity.
Qed.

Lemma get_pdf_filename_slash_in_query_witness :
  get_pdf_filename ("https://x.org/file.php" +:+ "?token=abc") (response_of 200 [] [] false)
    = spec_filename ("https://x.org/file.php" +:+ "?token=abc") (response_of 200 [] [] false) /\
  spec_filename ("https://x.org/file.php" +:+ "?token=abc") (response_of 200 [] [] false)
    = "file.php.pdf".
Proof.
  destruct get_pdf_filename_slash_in_query as [Hsame _].
  split; [|reflexivity].
  apply Hsame; [reflexivity | reflexivity | right; reflexivity].
Defined.

(** The two examples of the specification. *)
Example get_pdf_filename_from_url :
  get_pdf_filename "https://x.org/file.php?token=abc" (response_of 200 [] [] false)
    = "file.php.pdf".
Proof. reflexivity. Qed.

Example get_pdf_filename_from_header :
  get_pdf_filename "https://x.org/file.php?token=abc"
    (response_of 200 [("Content-Disposition", "filename=" +:+ quoted "report.pdf")] [] false)
    = "report.pdf".
Proof. reflexivity. Qed.

(** C7, on the code.  The requests of [download_pdf], the HEAD and the
    streaming GET, are all sent by the shared session.  But the probe of a
    candidate is sent with [requests.head], by a session with the default
    adapter and no retry, and so is the fetch of a seed page.  On a server
    that answers the first HEAD with 503 the probe takes that answer for
    the verdict and the page resolves to nothing, where the same request
    sent by the shared session is sent again and receives the PDF. *)
Theorem probe_bypasses_shared_session :
  (forall env url out, emits (by_session session) (download_pdf env url out)) /\
  requests_default <> session /\
  (forall env u w,
     trace (probe env u w).2 = trace w ++ [Wire requests_default HEAD u]) /\
  get_pdf_url env_busy_once "https://x.org/p" world_bare
    = (Returned None,
       {| fs := ∅;
          trace := [ Wire session GET "https://x.org/p";
                     Recv "https://x.org/p" (String.length one_link_html);
                     Wire requests_default HEAD "https://x.org/a.pdf" ] |}) /\
  (request env_busy_once session HEAD "https://x.org/a.pdf" false
     (after_request env_busy_once GET "https://x.org/p" false world_bare)).1
    = Returned (response_of 200 [("Content-Type", "application/pdf")] [] false) /\
  trace (discover env_seed "https://www.mhrc.ca" main_terms [seed_url] world_bare).2
    = [ Wire requests_default GET seed_url; Recv seed_url (String.length seed_html) ].
Proof.
  split; [exact download_pdf_by_session|].
  split; [discriminate|].
  split; [exact probe_trace|].
  repeat split; by_evaluation.
Qed.

(** C10, on the code.  The directory of the batch is fixed: every path
    that [process_article_links] returns is [pdfs] joined with a derived
    file name, and lies directly in [pdfs] when the name comes from the
    URL.  But the file name of Content-Disposition is joined as it comes: an
    absolute name replaces the directory, and the file is written and
    returned outside of [pdfs]. *)
Theorem process_article_links_leaves_pdfs :
  (forall env links w paths w' p,
     process_article_links env links w = (Returned paths, w') ->
     p ∈ paths ->
     exists u r,
       p = joinpath (Path_of "pdfs") (get_pdf_filename u r) /\
       (names_file r = false -> parent p = Path_of "pdfs")) /\
  exists p w',
    process_article_links env_absolute_name ["https://x.org/p"] world_with_tmp
      = (Returned [p], w') /\
    path_str p = "/tmp/evil.pdf" /\
    parent p = Path_of "/tmp" /\
    parent p <> Path_of "pdfs" /\
    fs w' !! "/tmp/evil.pdf" = Some (File (list_byte_of_string "%PDF")).
Proof.
  split; [exact process_article_links_targets|].
  exists (Path_of "/tmp/evil.pdf"),
    (process_article_links env_absolute_name ["https://x.org/p"] world_with_tmp).2.
  split; [by_evaluation|]. split; [reflexivity|]. split; [reflexivity|].
  split; [discriminate | by_evaluation].
Qed.

Lemma process_article_links_leaves_pdfs_witness :
  process_article_links env_batch batch_links world_bare
    = (Returned [Path_of "pdfs/f1.pdf"; Path_of "pdfs/f3.pdf"],
       (process_article_links env_batch batch_links world_bare).2) /\
  exists u r,
    Path_of "pdfs/f3.pdf" = joinpath (Path_of "pdfs") (get_pdf_filename u r) /\
    (names_file r = false -> parent (Path_of "pdfs/f3.pdf") = Path_of "pdfs").
Proof.
  assert (Hrun : process_article_links env_batch batch_links world_bare
                 = (Returned [Path_of "pdfs/f1.pdf"; Path_of "pdfs/f3.pdf"],
                    (process_article_links env_batch batch_links world_bare).2))
    by by_evaluation.
  split; [exact Hrun|].
  destruct process_article_links_leaves_pdfs as [Hdir _].
  apply (Hdir env_batch batch_links world_bare _ _ _ Hrun).
  apply elem_of_cons. right. apply elem_of_cons. now left.
Defined.

(** ** Further properties *)

(** *** The derived file name *)

Lemma lower_app s t : Py.lower (s +:+ t) = Py.lower s +:+ Py.lower t.
Proof.
  induction s as [|a s IH]; [reflexivity|].
  rewrite append_cons. cbn [Py.lower]. now rewrite append_cons, IH.
Qed.

Lemma rev_onto_append s t acc :
  Py.rev_onto (s +:+ t) acc = Py.rev_onto t (Py.rev_onto s acc).
Proof.
  revert acc. induction s as [|a s IH]; intros acc; [reflexivity|].
  rewrite append_cons. cbn [Py.rev_onto]. apply IH.
Qed.

Lemma endswith_with_pdf f : Py.endswith ".pdf" (Py.lower (f +:+ ".pdf")) = true.
Proof.
  rewrite lower_app. unfold Py.endswith, Py.rev. rewrite rev_onto_append.
  reflexivity.
Qed.

(** X1.  Whatever the URL and the response, the name [get_pdf_filename]
    derives ends in [.pdf], in some mix of upper and lower case. *)
Theorem get_pdf_filename_ends_in_pdf (url : string) (r : Response) :
  Py.endswith ".pdf" (Py.lower (get_pdf_filename url r)) = true.
Proof.
  unfold get_pdf_filename.
  match goal with
  | |- context [negb (Py.endswith ".pdf" (Py.lower ?f))] =>
      destruct (Py.endswith ".pdf" (Py.lower f)) eqn:E; cbn [negb]
  end.
  - exact E.
  - apply endswith_with_pdf.
Qed.

(** X2.  The derived name never contains a question mark: what follows the
    first one is cut off, also in a name taken from Content-Disposition. *)
Theorem get_pdf_filename_has_no_query (url : string) (r : Response) :
  Py.mem_char "?" (get_pdf_filename url r) = false.
Proof.
  unfold get_pdf_filename.
  match goal with
  | |- context [Py.first_item (Py.split "?" ?x)] =>
      set (base := x); set (name := Py.first_item (Py.split "?" base))
  end.
  assert (Hname : Py.mem_char "?" name = false).
  { destruct (Py.mem_char "?" name) eqn:E; [|reflexivity].
    assert (Hin : In name (Py.split "?" base)).
    { apply first_item_in, split_scan_not_nil. }
    apply (split_scan_char_pieces "?" EmptyString base name Hin) in E.
    discriminate. }
  destruct (negb _); [|exact Hname].
  rewrite mem_char_app, Hname. reflexivity.
Qed.

Section Further.

Variable env : Env.

(** *** What [download_pdf] does to the file system *)

Lemma keeps_world_ret {A} (a : A) : keeps_world (ret a).
Proof. intros w. reflexivity. Qed.

Lemma keeps_world_raise {A} (e : exn) : keeps_world (@raise A e).
Proof. intros w. reflexivity. Qed.

Lemma keeps_world_get_fs : keeps_world get_fs.
Proof. intros w. reflexivity. Qed.

Lemma keeps_world_bind {A B} (c : M A) (k : A -> M B) :
  keeps_world c -> (forall a, keeps_world (k a)) -> keeps_world (bind c k).
Proof.
  intros Hc Hk w. unfold bind. specialize (Hc w).
  destruct (c w) as [[a|e] w1]; simpl in Hc; subst w1; [apply Hk | reflexivity].
Qed.

Lemma keeps_world_header_int name r : keeps_world (header_int name r).
Proof.
  intros w. destruct (header_int name r w) as [o w'] eqn:E.
  apply header_int_pure in E. now subst.
Qed.

Lemma raise_for_status_world r w : (raise_for_status r w).2 = w.
Proof. unfold raise_for_status. destruct (http_error r); reflexivity. Qed.

Lemma already_complete_world p r w : (already_complete env p r w).2 = w.
Proof.
  revert w. change (keeps_world (already_complete env p r)).
  unfold already_complete, path_exists, st_size.
  apply keeps_world_bind.
  - apply keeps_world_bind; [apply keeps_world_get_fs|]. intros f. apply keeps_world_ret.
  - intros [|]; [|apply keeps_world_ret].
    apply keeps_world_bind.
    + apply keeps_world_bind; [apply keeps_world_get_fs|]. intros f.
      destruct (f !! path_str p) as [[d|]|];
        auto using keeps_world_ret, keeps_world_raise.
    + intros n. apply keeps_world_bind; [apply keeps_world_header_int|].
      intros z. apply keeps_world_ret.
Qed.

Lemma open_wb_cases p w :
  (exists e, open_wb p w = (Raised e, w)) \/
  (open_wb p w = (Returned tt, {| fs := <[path_str p := File []]> (fs w);
                                  trace := trace w |}) /\
   fs w !! path_str p <> Some Dir).
Proof.
  unfold open_wb, get_fs, put_fs, bind, raise. simpl.
  destruct (parts p); [left; eauto|].
  destruct (fs w !! path_str p) as [[d|]|]; [|left; eauto|];
    (destruct (dir_status (fs w) (parent p)); [left; eauto|right; split; [reflexivity|congruence]]).
Qed.

(** The transfer leaves the file system as it is or writes the target. *)
Lemma transfer_fs url p w :
  fs (transfer env url p w).2 = fs w \/
  exists data,
    fs w !! path_str p <> Some Dir /\
    fs (transfer env url p w).2 = <[path_str p := File data]> (fs w).
Proof.
  unfold transfer.
  pose proof (request_fs env session GET url true w) as Hreq.
  destruct (request env session GET url true w) as [[g|e] w1] eqn:Hg;
    simpl in Hreq.
  2:{ left. erewrite bind_raised by exact Hg. exact Hreq. }
  erewrite bind_returned by exact Hg.
  destruct (http_error g) eqn:He.
  { left. erewrite bind_raised by (apply raise_for_status_error; exact He).
    exact Hreq. }
  erewrite bind_returned by (apply raise_for_status_ok; exact He).
  destruct (header_int "content-length" g w1) as [[n|e] w2] eqn:Hn;
    pose proof (header_int_pure _ _ _ _ _ Hn); subst w2.
  2:{ left. erewrite bind_raised by exact Hn. exact Hreq. }
  erewrite bind_returned by exact Hn.
  destruct (open_wb_cases p w1) as [[e Ho]|[Ho Hnd]].
  { left. erewrite bind_raised by exact Ho. exact Hreq. }
  erewrite bind_returned by exact Ho.
  right. exists (concat (body_chunks g)). split; [now rewrite <- Hreq|].
  destruct (write_body_spec p url (body_chunks g)
              {| fs := <[path_str p := File []]> (fs w1); trace := trace w1 |} [])
    as (w3 & Hrun & Hfs & _).
  { simpl. apply lookup_insert_eq. }
  erewrite bind_returned by exact Hrun.
  simpl in Hfs. rewrite insert_insert_eq in Hfs. rewrite Hreq in Hfs.
  destruct (body_broken g); simpl; exact Hfs.
Qed.

Lemma download_pdf_fs_cases url out w :
  fs (download_pdf env url out w).2 = fs w \/
  exists r data,
    fs w !! path_str (joinpath out (get_pdf_filename url r)) <> Some Dir /\
    fs (download_pdf env url out w).2
    = <[path_str (joinpath out (get_pdf_filename url r)) := File data]> (fs w).
Proof.
  pose proof (request_fs env session HEAD url false w) as Hreq.
  destruct (request env session HEAD url false w) as [[r|e] w1] eqn:Hh;
    simpl in Hreq.
  2:{ left. rewrite (download_pdf_head_raises env url out w e w1 Hh). exact Hreq. }
  destruct (http_error r) eqn:He.
  { left. rewrite (download_pdf_head_rejected env url out w r w1 Hh He). exact Hreq. }
  pose proof (already_complete_world (joinpath out (get_pdf_filename url r)) r w1) as Hac.
  destruct (already_complete env (joinpath out (get_pdf_filename url r)) r w1)
    as [[[|]|e] w2] eqn:Hs; simpl in Hac; subst w2.
  - left. rewrite (download_pdf_skipped env url out w r w1 Hh He Hs). exact Hreq.
  - rewrite (download_pdf_transfers env url out w r w1 Hh He Hs).
    unfold try_except.
    destruct (transfer_fs url (joinpath out (get_pdf_filename url r)) w1)
      as [Hsame|(data & Hnd & Hins)].
    + left. destruct (transfer env url _ w1) as [[o|e] w2]; simpl in *; congruence.
    + right. exists r, data. rewrite <- Hreq. split; [exact Hnd|].
      destruct (transfer env url _ w1) as [[o|e] w2]; simpl in *; exact Hins.
  - left. unfold download_pdf. erewrite try_raised.
    2:{ erewrite bind_returned by exact Hh.
        erewrite bind_returned by (apply raise_for_status_ok; exact He).
        apply bind_raised. exact Hs. }
    exact Hreq.
Qed.

(** *** What resolution and discovery leave alone
    (the files, apart from the log) *)

Lemma keeps_files_ret {A} (a : A) : keeps_files (ret a).
Proof. intros w. reflexivity. Qed.

Lemma keeps_files_raise {A} (e : exn) : keeps_files (@raise A e).
Proof. intros w. reflexivity. Qed.

Lemma keeps_files_emit ev : keeps_files (emit ev).
Proof. intros w. reflexivity. Qed.

Lemma keeps_files_bind {A B} (c : M A) (k : A -> M B) :
  keeps_files c -> (forall a, keeps_files (k a)) -> keeps_files (bind c k).
Proof.
  intros Hc Hk w. unfold bind. specialize (Hc w).
  destruct (c w) as [[a|e] w1]; simpl in Hc; [|exact Hc].
  rewrite Hk. exact Hc.
Qed.

Lemma keeps_files_try {A} (c : M A) (h : exn -> M A) :
  keeps_files c -> (forall e, keeps_files (h e)) -> keeps_files (try_except c h).
Proof.
  intros Hc Hh w. unfold try_except. specialize (Hc w).
  destruct (c w) as [[a|e] w1]; simpl in Hc; [exact Hc|].
  rewrite Hh. exact Hc.
Qed.

Lemma keeps_files_request s m url stream : keeps_files (request env s m url stream).
Proof. intros w. apply request_fs. Qed.

Lemma keeps_files_raise_for_status r : keeps_files (raise_for_status r).
Proof. intros w. now rewrite raise_for_status_world. Qed.

Lemma keeps_files_probe u : keeps_files (probe env u).
Proof. intros w. apply probe_fs. Qed.

Lemma keeps_files_scan_links url links : keeps_files (scan_links env url links).
Proof.
  induction links as [|link rest IH]; simpl; [apply keeps_files_ret|].
  destruct (a_href link) as [href|]; [|exact IH].
  destruct (Py.truthy href); [|exact IH].
  destruct (urljoin env url href) as [full_url|]; [|apply keeps_files_raise].
  apply keeps_files_bind.
  - apply keeps_files_try; [apply keeps_files_probe|].
    intros _. apply keeps_files_ret.
  - intros [|]; [apply keeps_files_ret | exact IH].
Qed.

Lemma keeps_files_scan_patterns url patterns soup :
  keeps_files (scan_patterns env url patterns soup).
Proof.
  induction patterns as [|pattern rest IH]; simpl; [apply keeps_files_ret|].
  destruct (pattern soup) as [|a l]; [exact IH|].
  apply keeps_files_bind; [apply keeps_files_scan_links|].
  intros [u|]; [apply keeps_files_ret | exact IH].
Qed.

Lemma keeps_files_get_pdf_url url : keeps_files (get_pdf_url env url).
Proof.
  unfold get_pdf_url. apply keeps_files_try; [|intros _; apply keeps_files_ret].
  apply keeps_files_bind; [apply keeps_files_request|]. intros r.
  apply keeps_files_bind; [apply keeps_files_raise_for_status|]. intros _.
  apply keeps_files_scan_patterns.
Qed.

Lemma keeps_files_discover_loop base terms seeds all_links :
  keeps_files (discover_loop env base terms seeds all_links).
Proof.
  revert all_links. induction seeds as [|url rest IH]; intros all_links; simpl;
    [apply keeps_files_ret|].
  apply keeps_files_bind; [|intros found; apply IH].
  apply keeps_files_try; [|intros _; apply keeps_files_ret].
  apply keeps_files_bind; [apply keeps_files_request|]. intros r.
  apply keeps_files_bind; [apply keeps_files_raise_for_status|]. intros _.
  destruct (collect_links _ _ _ _ _ _) as [[[]|e] found]; apply keeps_files_ret.
Qed.

(** *** What [get_pdf_url] returns *)

Lemma first_verified_some l w u w' :
  first_verified env l w (Some u) w' ->
  u ∈ l /\ exists w2, probe env u w2 = (Returned true, w').
Proof.
  intros H. remember (Some u) as res eqn:E. revert E.
  induction H as [w|x rest w w0 Hp|x rest w w0 r w2 Hp H IH|x rest w e w0 r w2 Hp H IH];
    intros E.
  - discriminate.
  - injection E as ->. split; [apply elem_of_cons; now left | eauto].
  - destruct (IH E) as [Hin Hw]. split; [apply elem_of_cons; now right | exact Hw].
  - destruct (IH E) as [Hin Hw]. split; [apply elem_of_cons; now right | exact Hw].
Qed.

Lemma get_pdf_url_some url w u w' :
  get_pdf_url env url w = (Returned (Some u), w') ->
  exists page w1 w2,
    request env session GET url false w = (Returned page, w1) /\
    http_error page = false /\
    u ∈ candidates env url (html_anchors env (text page)) /\
    probe env u w2 = (Returned true, w').
Proof.
  intros H.
  destruct (request env session GET url false w) as [[page|e] w1] eqn:Hpage.
  2:{ rewrite (get_pdf_url_page_raises env url w e w1 Hpage) in H. discriminate. }
  destruct (http_error page) eqn:Hok.
  { rewrite (get_pdf_url_page_rejected env url w page w1 Hpage Hok) in H.
    discriminate. }
  destruct (get_pdf_url_scan env url w page w1 Hpage Hok) as (res & w2 & Hrun & Hfv).
  rewrite Hrun in H. injection H as -> ->.
  apply first_verified_some in Hfv as [Hin [w3 Hw3]].
  exists page, w1, w3. auto.
Qed.

(** X5.  An address that [get_pdf_url] returns is never made up: the page
    was fetched with a status that is no error, the address is the target
    of one of its anchors matched by a pattern, and the last thing the
    function did was the probe of that address, which verified. *)
Theorem get_pdf_url_returns_a_verified_candidate
    (url : string) (w : World) (u : string) (w' : World) :
  get_pdf_url env url w = (Returned (Some u), w') ->
  exists page w1 w2,
    request env session GET url false w = (Returned page, w1) /\
    http_error page = false /\
    u ∈ candidates env url (html_anchors env (text page)) /\
    probe env u w2 = (Returned true, w').
Proof. apply get_pdf_url_some. Qed.

(** *** The content-length header in [download_pdf] *)

Lemma header_int_malformed name r v w :
  headers_get name (headers r) = Some v -> Py.int v = None ->
  header_int name r w = (Raised ValueError, w).
Proof. intros H1 H2. unfold header_int. now rewrite H1, H2. Qed.

Lemma already_complete_malformed p r w node v :
  fs w !! path_str p = Some node ->
  headers_get "content-length" (headers r) = Some v -> Py.int v = None ->
  already_complete env p r w = (Raised ValueError, w).
Proof.
  intros Hnode Hv Hint.
  pose proof (header_int_malformed "content-length" r v w Hv Hint) as Hraise.
  unfold already_complete, path_exists, st_size, get_fs, bind, ret. simpl.
  rewrite Hnode. simpl. rewrite Hnode.
  destruct node; simpl; now rewrite Hraise.
Qed.


(** X8.  A content-length that is not a number makes [download_pdf] give
    up.  On the HEAD response it is read only when something is at the
    target path: then the result is [None] in the world the HEAD left, with
    no GET sent.  On the response of the streaming request it is read
    before the file is opened: the result is [None] in the world that
    request left, and what was at the target path, or that nothing was
    there, is as before the call, whatever the body was. *)
Theorem download_pdf_malformed_length :
  (forall url out w w1 r node v,
     request env session HEAD url false w = (Returned r, w1) ->
     http_error r = false ->
     fs w !! path_str (joinpath out (get_pdf_filename url r)) = Some node ->
     headers_get "content-length" (headers r) = Some v ->
     Py.int v = None ->
     download_pdf env url out w = (Returned None, w1)) /\
  (forall url out w w1 w2 r g v,
     request env session HEAD url false w = (Returned r, w1) ->
     http_error r = false ->
     already_complete env (joinpath out (get_pdf_filename url r)) r w1
       = (Returned false, w1) ->
     request env session GET url true w1 = (Returned g, w2) ->
     http_error g = false ->
     headers_get "content-length" (headers g) = Some v ->
     Py.int v = None ->
     download_pdf env url out w = (Returned None, w2) /\
     fs w2 !! path_str (joinpath out (get_pdf_filename url r))
     = fs w !! path_str (joinpath out (get_pdf_filename url r))).
Proof.
  split.
  - intros url out w w1 r node v Hhead Hok Hnode Hv Hint.
    assert (Hfs1 : fs w1 = fs w).
    { pose proof (request_fs env session HEAD url false w) as H.
      now rewrite Hhead in H. }
    unfold download_pdf. erewrite try_raised; [reflexivity|].
    erewrite bind_returned by exact Hhead.
    erewrite bind_returned by (apply raise_for_status_ok; exact Hok).
    apply bind_raised. apply already_complete_malformed with (node := node) (v := v);
      [now rewrite Hfs1 | exact Hv | exact Hint].
  - intros url out w w1 w2 r g v Hhead Hok Hskip Hget Hgok Hv Hint.
    rewrite (download_pdf_transfers env url out w r w1 Hhead Hok Hskip).
    split.
    + erewrite try_raised; [reflexivity|]. unfold transfer.
      erewrite bind_returned by exact Hget.
      erewrite bind_returned by (apply raise_for_status_ok; exact Hgok).
      apply bind_raised. now apply header_int_malformed with (v := v).
    + pose proof (request_fs env session GET url true w1) as H2.
      rewrite Hget in H2. simpl in H2.
      pose proof (request_fs env session HEAD url false w) as H1.
      rewrite Hhead in H1. simpl in H1. congruence.
Qed.

(** *** Doing a download again *)







(** What a transfer that returns has done. *)
Lemma transfer_returned url p w o w' :
  transfer env url p w = (Returned o, w') ->
  exists g w1 m w2,
    request env session GET url true w = (Returned g, w1) /\
    http_error g = false /\
    header_int "content-length" g w1 = (Returned m, w1) /\
    open_wb p w1 = (Returned tt, w2) /\
    body_broken g = false /\
    fs w' = <[path_str p := File (concat (body_chunks g))]> (fs w).
Proof.
  intros H.
  destruct (request env session GET url true w) as [[g|e] w1] eqn:Hg.
  2:{ rewrite (transfer_get_raises env url p w e w1 Hg) in H. discriminate. }
  destruct (http_error g) eqn:He.
  { rewrite (transfer_get_rejected env url p w g w1 Hg He) in H. discriminate. }
  destruct (header_int "content-length" g w1) as [[m|e] w2] eqn:Hm;
    pose proof (header_int_pure _ _ _ _ _ Hm); subst w2.
  2:{ unfold transfer in H. erewrite bind_returned in H by exact Hg.
      erewrite bind_returned in H by (apply raise_for_status_ok; exact He).
      erewrite bind_raised in H by exact Hm. discriminate. }
  destruct (open_wb p w1) as [[[]|e] w2] eqn:Ho.
  2:{ unfold transfer in H. erewrite bind_returned in H by exact Hg.
      erewrite bind_returned in H by (apply raise_for_status_ok; exact He).
      erewrite bind_returned in H by exact Hm.
      erewrite bind_raised in H by exact Ho. discriminate. }
  rewrite (transfer_copies env url p w g w1 m w2 Hg He Hm Ho) in H.
  destruct (body_broken g) eqn:Hb; [discriminate|].
  injection H as _ <-.
  exists g, w1, m, w2. repeat split; try assumption. simpl.
  pose proof (request_fs env session GET url true w) as Hfs.
  rewrite Hg in Hfs. simpl in Hfs. now rewrite Hfs.
Qed.



(** *** The path [download_pdf] returns *)

Lemma already_complete_present p r w :
  already_complete env p r w = (Returned true, w) -> is_Some (fs w !! path_str p).
Proof.
  unfold already_complete, path_exists, get_fs, bind, ret. simpl.
  destruct (fs w !! path_str p) as [node|]; [eauto | discriminate].
Qed.

Lemma download_pdf_result url out w p w' :
  download_pdf env url out w = (Returned (Some p), w') ->
  exists r w1,
    request env session HEAD url false w = (Returned r, w1) /\
    http_error r = false /\
    p = joinpath out (get_pdf_filename url r) /\
    is_Some (fs w' !! path_str p).
Proof.
  intros Hrun.
  destruct (request env session HEAD url false w) as [[r|e] w1] eqn:Hh.
  2:{ rewrite (download_pdf_head_raises env url out w e w1 Hh) in Hrun. discriminate. }
  destruct (http_error r) eqn:He.
  { rewrite (download_pdf_head_rejected env url out w r w1 Hh He) in Hrun.
    discriminate. }
  exists r, w1. split; [reflexivity|]. split; [exact He|].
  pose proof (already_complete_world (joinpath out (get_pdf_filename url r)) r w1) as Hac.
  destruct (already_complete env (joinpath out (get_pdf_filename url r)) r w1)
    as [[[|]|e] w2] eqn:Hs; simpl in Hac; subst w2.
  - rewrite (download_pdf_skipped env url out w r w1 Hh He Hs) in Hrun.
    injection Hrun as <- <-. split; [reflexivity|].
    now apply already_complete_present with (r := r).
  - rewrite (download_pdf_transfers env url out w r w1 Hh He Hs) in Hrun.
    unfold try_except in Hrun.
    destruct (transfer env url (joinpath out (get_pdf_filename url r)) w1)
      as [[o|e] w2] eqn:Ht; [|discriminate].
    pose proof (transfer_result env _ _ _ _ _ Ht) as ->.
    injection Hrun as <- <-. split; [reflexivity|].
    destruct (transfer_returned _ _ _ _ _ Ht) as (g & wg & m & wo & _ & _ & _ & _ & _ & Hfs).
    rewrite Hfs, lookup_insert_eq. eauto.
  - unfold download_pdf in Hrun. erewrite try_raised in Hrun.
    2:{ erewrite bind_returned by exact Hh.
        erewrite bind_returned by (apply raise_for_status_ok; exact He).
        apply bind_raised. exact Hs. }
    discriminate.
Qed.

(** X3.  A path that [download_pdf] returns is there when the call ends:
    the HEAD request was answered with a status that is no error, the path
    is the directory joined with the name derived from that answer, and
    after the call the path names a node, the file the call found or the
    file it wrote. *)
Theorem download_pdf_returns_an_existing_path
    (url : string) (out : Path) (w : World) (p : Path) (w' : World) :
  download_pdf env url out w = (Returned (Some p), w') ->
  exists r w1,
    request env session HEAD url false w = (Returned r, w1) /\
    http_error r = false /\
    p = joinpath out (get_pdf_filename url r) /\
    is_Some (fs w' !! path_str p).
Proof. apply download_pdf_result. Qed.

(** *** The batch and the directory *)

Lemma grows_from_refl f : grows_from f f.
Proof. intros k. auto. Qed.

Lemma grows_from_trans f g h : grows_from f g -> grows_from g h -> grows_from f h.
Proof. intros H1 H2 k. destruct (H1 k), (H2 k). auto. Qed.

Lemma grows_from_eq f g : g = f -> grows_from f g.
Proof. intros ->. apply grows_from_refl. Qed.

Lemma grows_from_insert f k node :
  f !! k <> Some Dir -> grows_from f (<[k := node]> f).
Proof.
  intros Hnd j. destruct (decide (k = j)) as [<-|Hne].
  - rewrite lookup_insert_eq. split; [congruence | eauto].
  - rewrite lookup_insert_ne by exact Hne. auto.
Qed.

Lemma download_pdf_grows url out w :
  grows_from (fs w) (fs (download_pdf env url out w).2).
Proof.
  destruct (download_pdf_fs_cases url out w) as [H|(r & data & Hnd & H)];
    rewrite H; [apply grows_from_refl | now apply grows_from_insert].
Qed.

Lemma link_run_grows link w file w' :
  link_run env link w file w' -> grows_from (fs w) (fs w').
Proof.
  intros H. inversion H as [? ? res w1 Hres _|? ? res u w1 ? w2 Hres _ Hdl]; subst.
  - apply grows_from_eq. pose proof (keeps_files_get_pdf_url link w) as Hk.
    now rewrite Hres in Hk.
  - pose proof (keeps_files_get_pdf_url link w) as Hk. rewrite Hres in Hk.
    simpl in Hk. rewrite <- Hk.
    pose proof (download_pdf_grows u (Path_of "pdfs") (slept 1000 w1)) as Hg.
    now rewrite Hdl in Hg.
Qed.

Lemma batch_run_grows links w outs w' :
  batch_run env links w outs w' -> grows_from (fs w) (fs w').
Proof.
  induction 1 as [w|link rest w file w1 files w' Hlink _ IH];
    [apply grows_from_refl|].
  eapply grows_from_trans; [eapply link_run_grows; eauto | exact IH].
Qed.

Lemma mkdir_pdfs w :
  mkdir_exist_ok (Path_of "pdfs") w =
  match fs w !! "pdfs" with
  | Some Dir => (Returned tt, w)
  | Some (File _) => (Raised FileExistsError, w)
  | None => (Returned tt, {| fs := <["pdfs" := Dir]> (fs w); trace := trace w |})
  end.
Proof.
  change (Path_of "pdfs") with {| root := EmptyString; parts := ["pdfs"] |}.
  unfold mkdir_exist_ok, get_fs, put_fs, bind, ret, raise. simpl.
  change (path_str {| root := EmptyString; parts := ["pdfs"] |}) with "pdfs".
  destruct (fs w !! "pdfs") as [[d|]|]; reflexivity.
Qed.

Lemma link_run_functional link w f1 w1 f2 w2 :
  link_run env link w f1 w1 -> link_run env link w f2 w2 -> f1 = f2 /\ w1 = w2.
Proof.
  intros H1 H2.
  inversion H1 as [? ? r1 v1 Hr1 Hn1|? ? r1 u1 v1 ? ? Hr1 Hs1 Hd1]; subst;
    inversion H2 as [? ? r2 v2 Hr2 Hn2|? ? r2 u2 v2 ? ? Hr2 Hs2 Hd2]; subst;
    rewrite Hr1 in Hr2; injection Hr2 as <- <-; try congruence.
  - auto.
  - rewrite Hs1 in Hs2. injection Hs2 as <-. rewrite Hd1 in Hd2.
    injection Hd2 as <- <-. auto.
Qed.

Lemma batch_run_functional links w o1 w1 o2 w2 :
  batch_run env links w o1 w1 -> batch_run env links w o2 w2 -> o1 = o2 /\ w1 = w2.
Proof.
  intros H1. revert o2 w2.
  induction H1 as [w|link rest w file wa files w' Hlink _ IH]; intros o2 w2 H2;
    inversion H2 as [|? ? ? file2 wb files2 ? Hlink2 Hrest2]; subst; [auto|].
  destruct (link_run_functional _ _ _ _ _ _ Hlink Hlink2) as [<- <-].
  destruct (IH _ _ Hrest2) as [<- <-]. auto.
Qed.

Lemma batch_run_app l1 l2 w o1 w' o2 w'' :
  batch_run env l1 w o1 w' -> batch_run env l2 w' o2 w'' ->
  batch_run env (l1 ++ l2) w (o1 ++ o2) w''.
Proof.
  induction 1 as [w|link rest w file wa files w' Hlink _ IH]; intros H2;
    [exact H2|].
  simpl. econstructor; [exact Hlink | now apply IH].
Qed.

Lemma process_article_links_returns links w w0 :
  mkdir_exist_ok (Path_of "pdfs") w = (Returned tt, w0) ->
  exists outs w',
    process_article_links env links w = (Returned (omap id outs), w') /\
    batch_run env links w0 outs w'.
Proof.
  intros Hmk. destruct (process_loop_batch env links [] w0) as (outs & w' & Hrun & Hb).
  exists outs, w'. split; [|exact Hb].
  unfold process_article_links. erewrite bind_returned by exact Hmk. exact Hrun.
Qed.

Lemma process_article_links_cases links w :
  match fs w !! "pdfs" with
  | Some (File _) => process_article_links env links w = (Raised FileExistsError, w)
  | _ =>
      exists w0 outs w',
        mkdir_exist_ok (Path_of "pdfs") w = (Returned tt, w0) /\
        fs w0 !! "pdfs" = Some Dir /\
        grows_from (fs w) (fs w0) /\
        trace w0 = trace w /\
        process_article_links env links w = (Returned (omap id outs), w') /\
        batch_run env links w0 outs w'
  end.
Proof.
  pose proof (mkdir_pdfs w) as Hmk.
  destruct (fs w !! "pdfs") as [[d|]|] eqn:E.
  - unfold process_article_links. now apply bind_raised.
  - destruct (process_article_links_returns links w w Hmk) as (outs & w' & Hrun & Hb).
    exists w, outs, w'. repeat split; auto.
  - destruct (process_article_links_returns links w _ Hmk) as (outs & w' & Hrun & Hb).
    eexists _, outs, w'. split; [exact Hmk|]. simpl.
    split; [apply lookup_insert_eq|]. split; [|split; [reflexivity|split; assumption]].
    apply grows_from_insert. congruence.
Qed.

Lemma process_article_links_grows
    (links : list string) (w : World) (paths : list Path) (w' : World) :
  process_article_links env links w = (Returned paths, w') ->
  fs w' !! "pdfs" = Some Dir /\
  (forall k, fs w !! k = Some Dir -> fs w' !! k = Some Dir) /\
  (forall k, is_Some (fs w !! k) -> is_Some (fs w' !! k)).
Proof.
  intros Hrun. pose proof (process_article_links_cases links w) as Hc.
  assert (Hex : exists w0 outs w2,
             fs w0 !! "pdfs" = Some Dir /\ grows_from (fs w) (fs w0) /\
             process_article_links env links w = (Returned (omap id outs), w2) /\
             batch_run env links w0 outs w2).
  { destruct (fs w !! "pdfs") as [[d|]|]; [congruence| |];
      destruct Hc as (w0 & outs & w2 & _ & H1 & H2 & _ & H3 & H4); eauto 10. }
  destruct Hex as (w0 & outs & w2 & Hdir & Hg0 & Hrun2 & Hb).
  rewrite Hrun in Hrun2. injection Hrun2 as _ <-.
  pose proof (batch_run_grows _ _ _ _ Hb) as Hg.
  split; [apply Hg, Hdir|].
  pose proof (grows_from_trans _ _ _ Hg0 Hg) as Hall.
  split; intros k; apply Hall.
Qed.

(** X10.  A batch never loses anything: when [process_article_links]
    returns, [pdfs] is a directory, every path that named a directory
    still names one, and every path that named something still does. *)
Theorem process_article_links_keeps_what_was_there
    (links : list string) (w : World) (paths : list Path) (w' : World) :
  process_article_links env links w = (Returned paths, w') ->
  fs w' !! "pdfs" = Some Dir /\
  (forall k, fs w !! k = Some Dir -> fs w' !! k = Some Dir) /\
  (forall k, is_Some (fs w !! k) -> is_Some (fs w' !! k)).
Proof. apply process_article_links_grows. Qed.

(** X11.  A regular file named [pdfs] stops a batch before it starts:
    [process_article_links] raises [FileExistsError], which nothing in it
    catches, in the world it was called in, whatever the links are: no
    link is looked at and no request is sent. *)
Theorem process_article_links_stops_at_a_file_named_pdfs
    (links : list string) (w : World) (d : list Byte.byte) :
  fs w !! "pdfs" = Some (File d) ->
  process_article_links env links w = (Raised FileExistsError, w).
Proof.
  intros Hd. pose proof (process_article_links_cases links w) as Hc.
  now rewrite Hd in Hc.
Qed.

(** X12.  A batch can be cut in two: when [pdfs] does not name a regular
    file, running [process_article_links] on the first part of a list and
    then on the rest, in the world the first run left, returns the two
    parts of what one run on the whole list returns, and ends in the same
    world. *)
Theorem process_article_links_in_two_runs
    (l1 l2 : list string) (w : World) :
  (forall d, fs w !! "pdfs" <> Some (File d)) ->
  exists p1 w' p2 w'',
    process_article_links env l1 w = (Returned p1, w') /\
    process_article_links env l2 w' = (Returned p2, w'') /\
    process_article_links env (l1 ++ l2) w = (Returned (p1 ++ p2), w'').
Proof.
  intros Hnf.
  assert (Hstart : exists w0,
            mkdir_exist_ok (Path_of "pdfs") w = (Returned tt, w0) /\
            fs w0 !! "pdfs" = Some Dir).
  { pose proof (process_article_links_cases [] w) as Hc.
    destruct (fs w !! "pdfs") as [[d|]|]; [now destruct (Hnf d)| |];
      destruct Hc as (w0 & _ & _ & Hmk & Hdir & _); eauto. }
  destruct Hstart as (w0 & Hmk & Hdir).
  destruct (process_article_links_returns l1 w w0 Hmk) as (o1 & w' & Hrun1 & Hb1).
  assert (Hdir' : fs w' !! "pdfs" = Some Dir).
  { apply (batch_run_grows _ _ _ _ Hb1), Hdir. }
  assert (Hmk' : mkdir_exist_ok (Path_of "pdfs") w' = (Returned tt, w')).
  { rewrite mkdir_pdfs, Hdir'. reflexivity. }
  destruct (process_article_links_returns l2 w' w' Hmk') as (o2 & w'' & Hrun2 & Hb2).
  destruct (process_article_links_returns (l1 ++ l2) w w0 Hmk)
    as (o & w3 & Hrun & Hb).
  destruct (batch_run_functional _ _ _ _ _ _ Hb (batch_run_app _ _ _ _ _ _ _ Hb1 Hb2))
    as [-> ->].
  exists (omap id o1), w', (omap id o2), w''.
  split; [exact Hrun1|]. split; [exact Hrun2|].
  rewrite Hrun. now rewrite omap_app.
Qed.

(** *** [main] *)

Lemma kept_in_domain base terms url link x :
  kept env base terms url link = Some x -> Py.contains base x = true.
Proof.
  unfold kept. destruct (a_href link) as [href|]; [|discriminate].
  destruct (Py.truthy href && relevant terms link href); [|discriminate].
  destruct (urljoin env url href) as [full_url|]; [|discriminate].
  destruct (Py.contains base full_url) eqn:E; [|discriminate].
  now intros [= <-].
Qed.

Lemma discover_found base terms seeds w (found : gset string) w' x :
  discover env base terms seeds w = (Returned found, w') ->
  x ∈ found -> x ∈ seeds \/ Py.contains base x = true.
Proof.
  intros Hrun Hin.
  destruct (discover_loop_spec env base terms seeds ∅ w)
    as (pages & w1 & found1 & Hloop & _ & Hx).
  unfold discover in Hrun. erewrite bind_returned in Hrun by exact Hloop.
  injection Hrun as <- <-.
  apply elem_of_union in Hin as [Hin|Hin].
  - destruct (proj1 (Hx x) Hin) as [Hacc|(u & soup & l & _ & _ & Hk)];
      [set_solver|].
    right. eapply kept_in_domain. exact Hk.
  - left. now apply elem_of_list_to_set in Hin.
Qed.

(** X14.  What the discovery of [main] lets through: every address in its
    result is a seed, or contains the base address somewhere in it; the
    test of line 216 is made on the joined address and is a test for a
    substring. *)
Theorem discover_keeps_to_the_base_address
    (base_url : string) (terms seeds : list string) (w : World)
    (found : gset string) (w' : World) (x : string) :
  discover env base_url terms seeds w = (Returned found, w') ->
  x ∈ found ->
  x ∈ seeds \/ Py.contains base_url x = true.
Proof. apply discover_found. Qed.

Lemma main_unfold w :
  main env w =
  (sleep 1000 ;;;
   all_links <- discover env "https://www.mhrc.ca" main_terms main_article_links ;;
   downloaded_files <- process_article_links env (elements all_links) ;;
   ret tt) w.
Proof. reflexivity. Qed.

(** X15.  [main] finds out that [pdfs] cannot be made only after the
    discovery: when [pdfs] names a regular file and the discovery over the
    three seed pages has returned, [main] raises [FileExistsError] in the
    world the discovery left, and what was found is lost. *)
Theorem main_stops_at_a_file_named_pdfs
    (w : World) (d : list Byte.byte) (found : gset string) (w1 : World) :
  fs w !! "pdfs" = Some (File d) ->
  discover env "https://www.mhrc.ca" main_terms main_article_links (slept 1000 w)
    = (Returned found, w1) ->
  main env w = (Raised FileExistsError, w1).
Proof.
  intros Hd Hdisc. rewrite main_unfold.
  unfold sleep. erewrite bind_returned by reflexivity.
  fold (slept 1000 w). erewrite bind_returned by exact Hdisc.
  apply bind_raised.
  pose proof (process_article_links_cases (elements found) w1) as Hc.
  assert (Hfs : fs w1 = fs w).
  { pose proof (keeps_files_bind _ _ (keeps_files_discover_loop "https://www.mhrc.ca"
                  main_terms main_article_links ∅)
                  (fun all_links => keeps_files_ret
                     (all_links ∪ list_to_set main_article_links)) (slept 1000 w)) as H.
    fold (discover env "https://www.mhrc.ca" main_terms main_article_links) in H.
    now rewrite Hdisc in H. }
  rewrite Hfs, Hd in Hc. exact Hc.
Qed.

End Further.

(** ** The further properties on the scenarios *)

Lemma get_pdf_url_returns_a_verified_candidate_witness :
  exists page w1 w2,
    request env_two_links session GET "https://x.org/p" false world_bare
      = (Returned page, w1) /\
    http_error page = false /\
    "https://x.org/download/b"
      ∈ candidates env_two_links "https://x.org/p"
          (html_anchors env_two_links (text page)) /\
    probe env_two_links "https://x.org/download/b" w2
      = (Returned true, (get_pdf_url env_two_links "https://x.org/p" world_bare).2).
Proof.
  apply (get_pdf_url_returns_a_verified_candidate env_two_links "https://x.org/p"
           world_bare "https://x.org/download/b"
           (get_pdf_url env_two_links "https://x.org/p" world_bare).2).
  by_evaluation.
Defined.


Lemma download_pdf_malformed_length_witness :
  Py.int "many" = None /\
  download_pdf env_bad_length report_url (Path_of "pdfs") world_complete
    = (Returned None, after_request env_bad_length HEAD report_url false world_complete) /\
  download_pdf env_bad_length report_url (Path_of "pdfs") world_fresh
    = (Returned None,
       after_request env_bad_length GET report_url true
         (after_request env_bad_length HEAD report_url false world_fresh)) /\
  fs (after_request env_bad_length GET report_url true
        (after_request env_bad_length HEAD report_url false world_fresh))
       !! path_str (joinpath (Path_of "pdfs") (get_pdf_filename report_url bad_head))
    = fs world_fresh
       !! path_str (joinpath (Path_of "pdfs") (get_pdf_filename report_url bad_head)).
Proof.
  split; [by_evaluation|].
  destruct (download_pdf_malformed_length env_bad_length) as [Hhead Hget].
  split.
  - apply (Hhead report_url (Path_of "pdfs") world_complete
             (after_request env_bad_length HEAD report_url false world_complete)
             bad_head (File (list_byte_of_string "abc")) "many");
      by_evaluation.
  - apply (Hget report_url (Path_of "pdfs") world_fresh
             (after_request env_bad_length HEAD report_url false world_fresh)
             (after_request env_bad_length GET report_url true
                (after_request env_bad_length HEAD report_url false world_fresh))
             bad_head bad_get "many");
      by_evaluation.
Defined.


Lemma download_pdf_returns_an_existing_path_witness :
  fs world_fresh !! "pdfs/r.pdf" = None /\
  exists r w1,
    request env_report session HEAD report_url false world_fresh = (Returned r, w1) /\
    http_error r = false /\
    joinpath (Path_of "pdfs") "r.pdf"
      = joinpath (Path_of "pdfs") (get_pdf_filename report_url r) /\
    is_Some (fs (after_download env_report report_url (Path_of "pdfs") world_fresh)
               !! path_str (joinpath (Path_of "pdfs") "r.pdf")).
Proof.
  split; [by_evaluation|].
  apply (download_pdf_returns_an_existing_path env_report report_url (Path_of "pdfs")
           world_fresh (joinpath (Path_of "pdfs") "r.pdf")
           (after_download env_report report_url (Path_of "pdfs") world_fresh)).
  by_evaluation.
Defined.

Lemma process_article_links_keeps_what_was_there_witness :
  fs world_with_tmp !! "/tmp" = Some Dir /\
  fs (after_batch env_batch batch_links world_with_tmp) !! "pdfs" = Some Dir /\
  (forall k, fs world_with_tmp !! k = Some Dir ->
             fs (after_batch env_batch batch_links world_with_tmp) !! k = Some Dir) /\
  (forall k, is_Some (fs world_with_tmp !! k) ->
             is_Some (fs (after_batch env_batch batch_links world_with_tmp) !! k)).
Proof.
  split; [by_evaluation|].
  apply (process_article_links_keeps_what_was_there env_batch batch_links world_with_tmp
           [Path_of "pdfs/f1.pdf"; Path_of "pdfs/f3.pdf"]
           (after_batch env_batch batch_links world_with_tmp)).
  by_evaluation.
Defined.

Lemma process_article_links_in_two_runs_witness :
  exists p1 w' p2 w'',
    process_article_links env_batch ["https://x.org/p1"] world_bare = (Returned p1, w') /\
    process_article_links env_batch ["https://x.org/p2"; "https://x.org/p3"] w'
      = (Returned p2, w'') /\
    process_article_links env_batch
      (["https://x.org/p1"] ++ ["https://x.org/p2"; "https://x.org/p3"]) world_bare
      = (Returned (p1 ++ p2), w'').
Proof.
  apply (process_article_links_in_two_runs env_batch ["https://x.org/p1"]
           ["https://x.org/p2"; "https://x.org/p3"] world_bare).
  intros d. vm_compute. discriminate.
Defined.

Lemma process_article_links_stops_at_a_file_named_pdfs_witness :
  process_article_links env_batch batch_links world_pdfs_is_file
    = (Raised FileExistsError, world_pdfs_is_file).
Proof.
  apply (process_article_links_stops_at_a_file_named_pdfs env_batch batch_links
           world_pdfs_is_file []).
  by_evaluation.
Defined.

Lemma discover_keeps_to_the_base_address_witness :
  "https://www.mhrc.ca/about" ∈ [seed_url] \/
  Py.contains "https://www.mhrc.ca" "https://www.mhrc.ca/about" = true.
Proof.
  apply (discover_keeps_to_the_base_address env_seed "https://www.mhrc.ca" main_terms
           [seed_url] world_bare
           ({[ "https://www.mhrc.ca/about"; seed_url ]} : gset string)
           (discover env_seed "https://www.mhrc.ca" main_terms [seed_url] world_bare).2
           "https://www.mhrc.ca/about").
  - by_evaluation.
  - apply elem_of_union. left. now apply elem_of_singleton.
Defined.

Lemma main_stops_at_a_file_named_pdfs_witness :
  main env_seed world_pdfs_is_file
    = (Raised FileExistsError,
       (discover env_seed "https://www.mhrc.ca" main_terms main_article_links
          (slept 1000 world_pdfs_is_file)).2).
Proof.
  apply (main_stops_at_a_file_named_pdfs env_seed world_pdfs_is_file [] seed_found).
  - by_evaluation.
  - by_evaluation.
Defined.
